(** * moslem-salat-times: the angle value type and the schedule options

    A shallow embedding of the Go sources
      - angle/angle.go            (textual form of an angle, parsing),
      - the angle arithmetic file (add / sub / div on angles),
      - schedule/option.go        (the schedule configuration and its
                                   validation),
    followed by the properties of the specification that concern them.

    Numbers.  Go's [float64] is modelled by [Float64.float64]: the finite
    values are exact rationals (rounding is not modelled, and the two IEEE
    zeros are identified), together with the IEEE special values +Inf, -Inf
    and NaN, so that a division by zero has the result it has in Go.  The
    properties below are stated through the operations of this type, or
    at values that binary64 represents exactly, so that they do not turn on
    rounding.  Where the behaviour of the code does turn on rounding (the
    swap recursion of the subtraction of triples) the routine is given
    once more over binary64 itself, in [B64]. *)

From Stdlib Require Import ZArith QArith Qabs Qround Qreduction.
From Stdlib Require Import Bool List.
From Stdlib Require PrimFloat.
Import ListNotations.

Set Implicit Arguments.

Open Scope Z_scope.

(* ------------------------------------------------------------------ *)
(** ** float64 *)

Module Float64.

Local Open Scope Q_scope.

Inductive float64 : Type :=
| Fin (q : Q)
| Inf (negative : bool)
| NaN.

Definition of_Z (z : Z) : float64 := Fin (inject_Z z).

Definition Qis_zero (q : Q) : bool := (Qnum q =? 0)%Z.
Definition Qis_neg (q : Q) : bool := (Qnum q <? 0)%Z.

Definition Qltb (p q : Q) : bool :=
  match p ?= q with Lt => true | _ => false end.

(** [-x] *)
Definition fopp (x : float64) : float64 :=
  match x with
  | Fin q => Fin (Qred (- q))
  | Inf s => Inf (negb s)
  | NaN => NaN
  end.

(** [x + y] *)
Definition fadd (x y : float64) : float64 :=
  match x, y with
  | NaN, _ | _, NaN => NaN
  | Fin p, Fin q => Fin (Qred (p + q))
  | Inf s, Fin _ => Inf s
  | Fin _, Inf s => Inf s
  | Inf s, Inf t => if Bool.eqb s t then Inf s else NaN
  end.

(** [x - y] *)
Definition fsub (x y : float64) : float64 :=
  match x, y with
  | NaN, _ | _, NaN => NaN
  | Fin p, Fin q => Fin (Qred (p - q))
  | Inf s, Fin _ => Inf s
  | Fin _, Inf s => Inf (negb s)
  | Inf s, Inf t => if Bool.eqb s t then NaN else Inf s
  end.

(** [x * y] *)
Definition fmul (x y : float64) : float64 :=
  match x, y with
  | NaN, _ | _, NaN => NaN
  | Fin p, Fin q => Fin (Qred (p * q))
  | Inf s, Fin q | Fin q, Inf s =>
      if Qis_zero q then NaN else Inf (xorb s (Qis_neg q))
  | Inf s, Inf t => Inf (xorb s t)
  end.

(** [x / y]: a finite non-zero value over zero is an infinity, zero over
    zero is NaN; no case raises. *)
Definition fdiv (x y : float64) : float64 :=
  match x, y with
  | NaN, _ | _, NaN => NaN
  | Fin p, Fin q =>
      if Qis_zero q
      then (if Qis_zero p then NaN else Inf (Qis_neg p))
      else Fin (Qred (p / q))
  | Fin _, Inf _ => Fin 0
  | Inf s, Fin q => Inf (xorb s (Qis_neg q))
  | Inf _, Inf _ => NaN
  end.

(** [math.Abs] *)
Definition fabs (x : float64) : float64 :=
  match x with
  | Fin q => Fin (Qred (Qabs q))
  | Inf _ => Inf false
  | NaN => NaN
  end.

(** [math.Floor] *)
Definition ffloor (x : float64) : float64 :=
  match x with
  | Fin q => Fin (inject_Z (Qfloor q))
  | _ => x
  end.

(** [x == y] *)
Definition feqb (x y : float64) : bool :=
  match x, y with
  | Fin p, Fin q => Qeq_bool p q
  | Inf s, Inf t => Bool.eqb s t
  | _, _ => false
  end.

(** [x < y] *)
Definition fltb (x y : float64) : bool :=
  match x, y with
  | NaN, _ | _, NaN => false
  | Fin p, Fin q => Qltb p q
  | Inf s, Fin _ => s
  | Fin _, Inf t => negb t
  | Inf s, Inf t => s && negb t
  end.

Definition is_finite (x : float64) : bool :=
  match x with Fin _ => true | _ => false end.

End Float64.
Export Float64.

(* ------------------------------------------------------------------ *)
(** ** errors *)

(** Go's [error] values.  The first six are the values of the package err
    the validation returns, the seventh is the one [Scan] returns.
    [ErrDivisionByZero] is the error kind [DivisionByZero] of the spec; no
    function of the sources returns it.  [ErrUnmarshal] stands for the
    non-nil error of [json.Unmarshal] on a text that is not a JSON number
    or is a number out of the range of [float64]. *)
Inductive error : Type :=
| ErrDateMissing
| ErrLatitudeMissing
| ErrLongitudeMissing
| ErrFajrZenithMissing
| ErrIshaZenithMissing
| ErrMazhabMissing
| ErrConstantParsing
| ErrDivisionByZero
| ErrUnmarshal.

(* ------------------------------------------------------------------ *)
(** ** angle/angleType and angle/consts *)

Module angleType.

(** Modelled from the spec: the package angle/angleType is not among the
    sources; the spec has [representation: decimal|degree-minute-second]. *)
Inductive AngleType : Type := Decimal | DegreeMinuteSecond.

Definition eqb (t u : AngleType) : bool :=
  match t, u with
  | Decimal, Decimal | DegreeMinuteSecond, DegreeMinuteSecond => true
  | _, _ => false
  end.

End angleType.

(** A rune is a Unicode code point (Go's [int32]). *)
Definition rune : Type := Z.

Module consts.

(** Modelled from the spec: the package angle/consts is not among the
    sources.  The spec fixes the glyphs of the textual form (the degree
    sign, the apostrophe for minutes, the double quote for seconds, a
    leading hyphen-minus) and the sexagesimal base (60 of the smaller
    unit, borrowing one unit). *)
Definition DegreeSymbolRune : rune := 176.   (* U+00B0 *)
Definition MinuteSymbolRune : rune := 39.    (* U+0027 *)
Definition SecondSymbolRune : rune := 34.    (* U+0022 *)
Definition NegativeSymbolRune : rune := 45.  (* U+002D *)

Definition DecimalZero : float64 := of_Z 0.
Definition DecimalOne : float64 := of_Z 1.
Definition TimeFormatConverter : float64 := of_Z 60.

End consts.

(* ------------------------------------------------------------------ *)
(** ** package angle: the value type *)

Record Angle : Type := mkAngle {
  degree : float64;
  minute : float64;
  second : float64;
  neg : bool;
  angType : angleType.AngleType
}.

Definition set_degree (x : float64) (a : Angle) : Angle :=
  mkAngle x (minute a) (second a) (neg a) (angType a).
Definition set_minute (x : float64) (a : Angle) : Angle :=
  mkAngle (degree a) x (second a) (neg a) (angType a).
Definition set_second (x : float64) (a : Angle) : Angle :=
  mkAngle (degree a) (minute a) x (neg a) (angType a).
Definition set_neg (b : bool) (a : Angle) : Angle :=
  mkAngle (degree a) (minute a) (second a) b (angType a).
Definition set_angType (t : angleType.AngleType) (a : Angle) : Angle :=
  mkAngle (degree a) (minute a) (second a) (neg a) t.

(** Go's zero value of the struct. *)
Definition zeroAngle : Angle :=
  mkAngle (of_Z 0) (of_Z 0) (of_Z 0) false angleType.Decimal.

Definition AngleType (d : Angle) : angleType.AngleType := angType d.

(** Modelled from the spec: [abs()] is not among the sources; the sign is
    [a single separate boolean-like flag], which [abs] clears. *)
Definition Abs (a : Angle) : Angle := set_neg false a.

(** Modelled from the spec: [negate()] is not among the sources; it flips
    the sign flag. *)
Definition Neg (a : Angle) : Angle := set_neg (negb (neg a)) a.

(** Modelled from the spec: [toDecimal()] is not among the sources.  The
    decimal degrees of a degree/minute/second triple are
    [degree + minute/60 + second/3600]; the sign flag is kept and the
    fields of the other group are left at zero. *)
Definition ToDecimal (a : Angle) : Angle :=
  match angType a with
  | angleType.Decimal => a
  | angleType.DegreeMinuteSecond =>
      mkAngle (fadd (fadd (degree a) (fdiv (minute a) (of_Z 60)))
                    (fdiv (second a) (of_Z 3600)))
              (of_Z 0) (of_Z 0) (neg a) angleType.Decimal
  end.

(** Modelled from the spec: [toDegreeMinuteSecond()] is not among the
    sources.  Whole degrees, then whole minutes of the remainder, then the
    seconds that are left; the sign flag is kept. *)
Definition ToMinuteSecond (a : Angle) : Angle :=
  match angType a with
  | angleType.DegreeMinuteSecond => a
  | angleType.Decimal =>
      let d := ffloor (degree a) in
      let rest := fmul (fsub (degree a) d) (of_Z 60) in
      let m := ffloor rest in
      let s := fmul (fsub rest m) (of_Z 60) in
      mkAngle d m s (neg a) angleType.DegreeMinuteSecond
  end.

(** Modelled from the spec: [toRepresentation(r)] is not among the
    sources. *)
Definition ToSpecificType (a : Angle) (t : angleType.AngleType) : Angle :=
  match t with
  | angleType.Decimal => ToDecimal a
  | angleType.DegreeMinuteSecond => ToMinuteSecond a
  end.

(** Modelled from the spec: the normalisation after an operation on
    triples is not among the sources: [seconds >= 60 roll into minutes,
    minutes >= 60 roll into degrees]. *)
Definition prepareConvertMinuteSecond (a : Angle) : Angle :=
  let cs := ffloor (fdiv (second a) consts.TimeFormatConverter) in
  let s := fsub (second a) (fmul cs consts.TimeFormatConverter) in
  let m1 := fadd (minute a) cs in
  let cm := ffloor (fdiv m1 consts.TimeFormatConverter) in
  let m := fsub m1 (fmul cm consts.TimeFormatConverter) in
  let d := fadd (degree a) cm in
  mkAngle d m s (neg a) (angType a).

(** The signed decimal degrees of an angle. *)
Definition signedDecimal (a : Angle) : float64 :=
  let v := degree (ToDecimal a) in
  if neg a then fopp v else v.

(** Modelled from the spec: the comparison is not among the sources.  The
    magnitudes are compared in decimal degrees and combined with the sign
    into the order of the signed values. *)
Definition GreatherThan (a a1 : Angle) : bool :=
  fltb (signedDecimal a1) (signedDecimal a).

(** Modelled from the spec: [isZero()] is not among the sources; it holds
    when the authoritative field group is zero, whatever the sign flag. *)
Definition IsZero (a : Angle) : bool :=
  match angType a with
  | angleType.Decimal => feqb (degree a) consts.DecimalZero
  | angleType.DegreeMinuteSecond =>
      feqb (degree a) consts.DecimalZero &&
      feqb (minute a) consts.DecimalZero &&
      feqb (second a) consts.DecimalZero
  end.

Definition IsNegative (a : Angle) : bool := neg a.

(* ------------------------------------------------------------------ *)
(** ** package angle: arithmetic

    The Go functions below call themselves and each other; the embedding
    follows the calls with a fuel argument that bounds the call depth and
    answers [None] when it is used up. *)

Definition addToDecimalType (a ang : Angle) : Angle :=
  let ang :=
    if negb (angleType.eqb (angType ang) angleType.Decimal)
    then ToDecimal ang else ang in
  mkAngle (fadd (degree a) (degree ang))
          (of_Z 0) (of_Z 0) false angleType.Decimal.

Definition addToMinuteSecondType (a ang : Angle) : Angle :=
  let ang :=
    if negb (angleType.eqb (angType ang) angleType.DegreeMinuteSecond)
    then ToMinuteSecond ang else ang in
  let second' := fadd (second a) (second ang) in
  let minute' := fadd (minute a) (minute ang) in
  let degree' := fadd (degree a) (degree ang) in
  prepareConvertMinuteSecond
    (mkAngle degree' minute' second' false angleType.DegreeMinuteSecond).

Fixpoint subToDecimalType (fuel : nat) (a a1 : Angle) : option Angle :=
  match fuel with
  | O => None
  | S fuel =>
      let a1 :=
        if negb (angleType.eqb (angType a1) angleType.Decimal)
        then ToDecimal a1 else a1 in
      if GreatherThan a1 a
      then option_map Neg (subToDecimalType fuel a1 a)
      else Some (mkAngle (fabs (fsub (degree a) (degree a1)))
                         (of_Z 0) (of_Z 0) false angleType.Decimal)
  end.

Definition takeForSub (value upperValue : float64) : float64 * float64 :=
  if feqb upperValue consts.DecimalZero
  then (value, upperValue)
  else (fadd value consts.TimeFormatConverter,
        fsub upperValue consts.DecimalOne).

Definition prepareMinuend (a a1 : Angle) : Angle :=
  let second0 := second a in
  let minute0 := minute a in
  let degree0 := degree a in
  let '(second1, minute1, degree1) :=
    if fltb second0 (second a1)
    then
      let '(s, m) := takeForSub second0 minute0 in
      if feqb s (second a)
      then let '(m', d') := takeForSub m degree0 in (s, m', d')
      else (s, m, degree0)
    else (second0, minute0, degree0) in
  let '(minute2, degree2) :=
    if fltb minute1 (minute a1)
    then takeForSub minute1 degree1
    else (minute1, degree1) in
  mkAngle degree2 minute2 second1 false angleType.DegreeMinuteSecond.

Fixpoint subToMinuteSecondType (fuel : nat) (a a1 : Angle) : option Angle :=
  match fuel with
  | O => None
  | S fuel =>
      let a1 :=
        if negb (angleType.eqb (angType a1) angleType.DegreeMinuteSecond)
        then ToMinuteSecond a1 else a1 in
      let a := prepareMinuend a a1 in
      if GreatherThan a1 a
      then option_map Neg (subToMinuteSecondType fuel a1 a)
      else Some (prepareConvertMinuteSecond
                   (mkAngle (fabs (fsub (degree a) (degree a1)))
                            (fabs (fsub (minute a) (minute a1)))
                            (fabs (fsub (second a) (second a1)))
                            false angleType.DegreeMinuteSecond))
  end.

(** [addToAugendType] and [subToMinuendType] call each other through the
    exported [Sub].

    Modelled from the spec: the exported [Sub] is not among the sources; it
    is the subtraction [a - b] of the arithmetic component, that is, the
    call of [subToMinuendType] on the same operands. *)
Fixpoint addToAugendType (fuel : nat) (a a1 : Angle) : option Angle :=
  match fuel with
  | O => None
  | S fuel =>
      if neg a && neg a1
      then option_map Neg (addToAugendType fuel (Abs a) (Abs a1))
      else if neg a
      then subToMinuendType fuel (ToSpecificType a1 (angType a)) (Abs a)
      else if neg a1
      then subToMinuendType fuel a (Abs a1)
      else if angleType.eqb (angType a) angleType.Decimal
      then Some (addToDecimalType a a1)
      else Some (addToMinuteSecondType a a1)
  end
with subToMinuendType (fuel : nat) (a a1 : Angle) : option Angle :=
  match fuel with
  | O => None
  | S fuel =>
      if neg a && neg a1
      then subToMinuendType fuel
             (ToSpecificType (Abs a1) (angType a)) (Abs a1)
      else if neg a
      then option_map Neg (addToAugendType fuel (Abs a) (Abs a1))
      else if neg a1
      then addToAugendType fuel (Abs a) (Abs a1)
      else if angleType.eqb (angType a1) angleType.Decimal
      then subToDecimalType fuel a a1
      else subToMinuteSecondType fuel a a1
  end.

(** The fuel of the exported operations: two calls of the dispatch and
    three of a subtraction routine. *)
Definition callDepth : nat := 5.

(** Modelled from the spec: the exported operations are not among the
    sources; they are the entry points of the arithmetic above. *)
Definition Add (a a1 : Angle) : option Angle := addToAugendType callDepth a a1.
Definition Sub (a a1 : Angle) : option Angle := subToMinuendType callDepth a a1.

Definition divToDividendType (a : Angle) (d : float64) : Angle :=
  let angType0 := angType a in
  let a :=
    if negb (angleType.eqb (angType a) angleType.Decimal)
    then ToDecimal a else a in
  let a := set_degree (fdiv (degree a) d) a in
  ToSpecificType a angType0.

(** What the caller of a Go function observes: the value it returns, or the
    error it fails with (an [error] result or a panic).  The result type of
    [divToDividendType] is [Angle], its body has no [panic], and a division
    of [float64] values does not panic in Go: every call returns. *)
Inductive outcome (A : Type) : Type :=
| Returned (v : A)
| Failed (e : error).

Arguments Returned {A} v.
Arguments Failed {A} e.

Definition call_divToDividendType (a : Angle) (d : float64)
  : outcome Angle := Returned (divToDividendType a d).

(** Construction of test values. *)
Definition dec (q : Q) : Angle :=
  mkAngle (Fin q) (of_Z 0) (of_Z 0) false angleType.Decimal.
Definition dms (d m s : Q) : Angle :=
  mkAngle (Fin d) (Fin m) (Fin s) false angleType.DegreeMinuteSecond.

(* ------------------------------------------------------------------ *)
(** ** encoding/json, as far as a [*float64] target goes

    [json.Unmarshal(data, &x)] with [x] a [float64]: the text must be one
    JSON value between optional white space.  A number that fits a
    [float64] is stored in [x]; a number too large for one is an error
    (the [UnmarshalTypeError] that follows [strconv.ParseFloat]'s range
    error) and leaves [x] as it is; the literal [null] leaves [x] as it is
    and is no error; anything else is an error and leaves [x] as it is.
    A number that fits is taken at its decimal value. *)

Module json.

Definition is_digit (c : rune) : bool := (48 <=? c) && (c <=? 57).
Definition is_space (c : rune) : bool :=
  (c =? 32) || (c =? 9) || (c =? 10) || (c =? 13).

Fixpoint skip_space (l : list rune) : list rune :=
  match l with
  | c :: r => if is_space c then skip_space r else l
  | [] => []
  end.

(** The longest prefix of digits, as digit values, and what follows it. *)
Fixpoint take_digits (l : list rune) : list Z * list rune :=
  match l with
  | c :: r =>
      if is_digit c
      then let '(ds, rest) := take_digits r in ((c - 48) :: ds, rest)
      else ([], l)
  | [] => ([], [])
  end.

Definition digits_value (ds : list Z) : Z :=
  fold_left (fun acc d => 10 * acc + d) ds 0.

(** [int = 0 | [1-9][0-9]*] *)
Definition int_part_ok (ds : list Z) : bool :=
  match ds with
  | [] => false
  | [ _ ] => true
  | d :: _ => negb (d =? 0)
  end.

Definition parse_sign (l : list rune) : bool * list rune :=
  match l with
  | 45 :: r => (true, r)
  | _ => (false, l)
  end.

Definition parse_frac (l : list rune) : option (list Z * list rune) :=
  match l with
  | 46 :: r =>
      match take_digits r with
      | ([], _) => None
      | res => Some res
      end
  | _ => Some ([], l)
  end.

Definition parse_exp (l : list rune) : option (Z * list rune) :=
  match l with
  | c :: r =>
      if (c =? 101) || (c =? 69)
      then
        let '(negative, r') :=
          match r with
          | 43 :: r' => (false, r')
          | 45 :: r' => (true, r')
          | _ => (false, r)
          end in
        match take_digits r' with
        | ([], _) => None
        | (ds, rest) =>
            Some (if negative then - digits_value ds else digits_value ds,
                  rest)
        end
      else Some (0, l)
  | [] => Some (0, [])
  end.

Definition pow10 (e : Z) : Q :=
  if e <? 0 then (1 # Pos.pow 10 (Z.to_pos (- e)))%Q
  else inject_Z (10 ^ e).

(** The value of a JSON number literal, [None] when the text is not one. *)
Definition number (l : list rune) : option Q :=
  let '(negative, l) := parse_sign l in
  let '(ds, l) := take_digits l in
  if int_part_ok ds then
    match parse_frac l with
    | None => None
    | Some (fs, l) =>
        match parse_exp l with
        | None => None
        | Some (e, l) =>
            match l with
            | _ :: _ => None
            | [] =>
                let m := digits_value (ds ++ fs) in
                let q := (inject_Z m * pow10 (e - Z.of_nat (length fs)))%Q in
                Some (Qred (if negative then (- q)%Q else q))
            end
        end
    end
  else None.

Fixpoint trim_right (l : list rune) : list rune :=
  match l with
  | [] => []
  | c :: r =>
      match trim_right r with
      | [] => if is_space c then [] else [c]
      | r' => c :: r'
      end
  end.

(** [strconv.ParseFloat] reports a range error for a decimal that is half
    a unit in the last place or more beyond the largest [float64]. *)
Definition overflowBound : Q := inject_Z (2 ^ 1024 - 2 ^ 970).

Definition overflows (q : Q) : bool := Qle_bool overflowBound (Qabs q).

Inductive decoded : Type :=
| Number (v : float64)
| Null
| OutOfRange
| Invalid.

Definition decode (data : list rune) : decoded :=
  let l := trim_right (skip_space data) in
  match l with
  | [110; 117; 108; 108] => Null
  | _ =>
      match number l with
      | Some q => if overflows q then OutOfRange else Number (Fin q)
      | None => Invalid
      end
  end.

(** [json.Unmarshal(data, &x)]: the new value of [x] and the error. *)
Definition Unmarshal (data : list rune) (x : float64)
  : float64 * option error :=
  match decode data with
  | Number v => (v, None)
  | Null => (x, None)
  | OutOfRange => (x, Some ErrUnmarshal)
  | Invalid => (x, Some ErrUnmarshal)
  end.

End json.

(* ------------------------------------------------------------------ *)
(** ** package angle: the textual form (angle.go)

    A method with a pointer receiver that returns an [error] is a function
    from the receiver's value to its new value and the error. *)

Definition action : Type := Angle -> Angle * option error.

Definition ok : action := fun d => (d, None).

(** Run [f], return its error if it has one, otherwise go on with [g]. *)
Definition andThen (f g : action) : action :=
  fun d => match f d with
           | (d', None) => g d'
           | failed => failed
           end.

Definition when (c : bool) (f : action) : action := if c then f else ok.

Notation "f ;; g" := (andThen f g) (at level 61, right associativity).

(** An action that leaves the sign flag of the receiver as it is. *)
Definition keeps_neg (f : action) : Prop :=
  forall d : Angle, neg (fst (f d)) = neg d.

(** [json.Unmarshal([]byte(src), &d.field)] *)
Definition unmarshalInto (src : list rune)
    (get : Angle -> float64) (set : float64 -> Angle -> Angle) : action :=
  fun d => let '(v, e) := json.Unmarshal src (get d) in (set v d, e).

Definition fillBySymbol (src : list rune) (symbol : rune) : action :=
  when (symbol =? consts.DegreeSymbolRune)
       (unmarshalInto src degree set_degree) ;;
  when (symbol =? consts.MinuteSymbolRune)
       (unmarshalInto src minute set_minute) ;;
  unmarshalInto src second set_second.

Definition decideFillBySymbol (src : list rune) (symbol : rune) : action :=
  fun d =>
    let d := set_angType angleType.Decimal d in
    let d :=
      if (symbol =? consts.MinuteSymbolRune) ||
         (symbol =? consts.SecondSymbolRune)
      then set_angType angleType.DegreeMinuteSecond d
      else d in
    fillBySymbol src symbol d.

(** The loop of [scanByString]: [buff] is the buffer so far, [s] the loop
    variable, which keeps the last rune when the loop is over. *)
Fixpoint scanLoop (src buff : list rune) (s : rune) : action :=
  match src with
  | [] => decideFillBySymbol buff s
  | c :: rest =>
      if negb (c =? consts.DegreeSymbolRune) &&
         negb (c =? consts.MinuteSymbolRune) &&
         negb (c =? consts.SecondSymbolRune)
      then scanLoop rest (buff ++ [c]) c
      else if c =? consts.NegativeSymbolRune
      then fun d => scanLoop rest buff c (set_neg true d)
      else decideFillBySymbol buff c ;; scanLoop rest buff c
  end.

Definition scanByString (src : list rune) : action := scanLoop src [] 0.

Definition UnmarshalParam (src : list rune) : action := scanByString src.

(** [Scan(val interface{})]: [None] is a value that is not a byte slice. *)
Definition Scan (val : option (list rune)) : action :=
  match val with
  | None => fun d => (d, Some ErrConstantParsing)
  | Some rawVal => scanByString rawVal
  end.

(* ------------------------------------------------------------------ *)
(** ** package time, as far as the options use it *)

Module time.

(** An instant: seconds and nanoseconds since January 1, year 1, 00:00 UTC.
    Go's zero [time.Time] is that instant. *)
Record Time : Type := mkTime { sec : Z; nsec : Z }.

Definition zero : Time := mkTime 0 0.

Definition IsZero (t : Time) : bool := (sec t =? 0) && (nsec t =? 0).

(** A time zone: its offset east of UTC in seconds. *)
Record Location : Type := mkLocation { offset : Z }.

Definition UTC : Location := mkLocation 0.

End time.

(* ------------------------------------------------------------------ *)
(** ** the enumerations of the schedule package *)

Module salatEnum.

(** Modelled from the spec: the package enum/salat is not among the
    sources; the spec names the prayers and the two sun events a schedule
    is solved for. *)
Inductive Salat : Type := Fajr | Sunrise | Dhuhr | Asr | Maghrib | Isha.

Definition eqb (s t : Salat) : bool :=
  match s, t with
  | Fajr, Fajr | Sunrise, Sunrise | Dhuhr, Dhuhr
  | Asr, Asr | Maghrib, Maghrib | Isha, Isha => true
  | _, _ => false
  end.

End salatEnum.

Module sunZenithEnum.

(** Modelled from the spec: the package enum/sunZenith is not among the
    sources; the Isha zenith is of [kind: standard | offset-based]. *)
Inductive IshaZenithType : Type := Standard | OffsetBased.

End sunZenithEnum.

(** The remaining enumerations are integer types of which option.go uses no
    constant other than the zero value. *)
Definition Periodical : Type := Z.
Definition Mazhab : Type := Z.
Definition HigherLat : Type := Z.
Definition RoundingTimeOption : Type := Z.

(** Modelled from the spec: the package utils/sunPositions is not among the
    sources; the spec's solar day state is
    [{ date, declination, equation-of-time }]. *)
Record SunPosition : Type := mkSunPosition {
  spDate : time.Time;
  spDeclination : Angle;
  spEquationOfTime : float64
}.

Definition SunPositions : Type := list SunPosition.

(* ------------------------------------------------------------------ *)
(** ** package schedule: option.go *)

Record opt : Type := mkOpt {
  dateStart : time.Time;
  dateEnd : time.Time;
  periodical : Periodical;

  latitude : Angle;
  longitude : Angle;
  elevation : float64;
  timezoneLoc : option time.Location;

  fajrZenith : Angle;
  ishaZenith : Angle;
  ishaZenithType : sunZenithEnum.IshaZenithType;

  mazhab : Mazhab;
  higherLatitudeMethod : HigherLat;

  roundingTimeOption : RoundingTimeOption;

  sunPositions : SunPositions
}.

(** Go's zero value of the struct. *)
Definition zeroOpt : opt :=
  mkOpt time.zero time.zero 0 zeroAngle zeroAngle (of_Z 0) None
        zeroAngle zeroAngle sunZenithEnum.Standard 0 0 0 [].

Definition set_dates (s e : time.Time) (p : Periodical) (o : opt) : opt :=
  mkOpt s e p (latitude o) (longitude o) (elevation o) (timezoneLoc o)
        (fajrZenith o) (ishaZenith o) (ishaZenithType o) (mazhab o)
        (higherLatitudeMethod o) (roundingTimeOption o) (sunPositions o).

Definition set_dateStart (s : time.Time) (o : opt) : opt :=
  set_dates s (dateEnd o) (periodical o) o.

Definition set_coordinates (lat long : Angle) (o : opt) : opt :=
  mkOpt (dateStart o) (dateEnd o) (periodical o) lat long (elevation o)
        (timezoneLoc o) (fajrZenith o) (ishaZenith o) (ishaZenithType o)
        (mazhab o) (higherLatitudeMethod o) (roundingTimeOption o)
        (sunPositions o).

Definition set_longitude (long : Angle) (o : opt) : opt :=
  set_coordinates (latitude o) long o.

Definition set_timezoneLoc (l : option time.Location) (o : opt) : opt :=
  mkOpt (dateStart o) (dateEnd o) (periodical o) (latitude o) (longitude o)
        (elevation o) l (fajrZenith o) (ishaZenith o) (ishaZenithType o)
        (mazhab o) (higherLatitudeMethod o) (roundingTimeOption o)
        (sunPositions o).

Definition set_zeniths (f i : Angle) (t : sunZenithEnum.IshaZenithType)
    (o : opt) : opt :=
  mkOpt (dateStart o) (dateEnd o) (periodical o) (latitude o) (longitude o)
        (elevation o) (timezoneLoc o) f i t (mazhab o)
        (higherLatitudeMethod o) (roundingTimeOption o) (sunPositions o).

Definition set_mazhab (m : Mazhab) (o : opt) : opt :=
  mkOpt (dateStart o) (dateEnd o) (periodical o) (latitude o) (longitude o)
        (elevation o) (timezoneLoc o) (fajrZenith o) (ishaZenith o)
        (ishaZenithType o) m (higherLatitudeMethod o)
        (roundingTimeOption o) (sunPositions o).

Definition set_sunPositions (s : SunPositions) (o : opt) : opt :=
  mkOpt (dateStart o) (dateEnd o) (periodical o) (latitude o) (longitude o)
        (elevation o) (timezoneLoc o) (fajrZenith o) (ishaZenith o)
        (ishaZenithType o) (mazhab o) (higherLatitudeMethod o)
        (roundingTimeOption o) s.

Section DateSetters.

(** The package enum/periodical is not among the sources and the spec
    leaves the enumeration of date ranges out; its two functions are
    parameters of the setters that call them. *)
Variable GetByDateRange : time.Time -> time.Time -> Periodical.
Variable GetDateRange : Periodical -> time.Time -> time.Time * time.Time.

Definition SetDateRange (dateStart' dateEnd' : time.Time) (o : opt) : opt :=
  let o := set_dates dateStart' dateEnd'
                     (GetByDateRange dateStart' dateEnd') o in
  set_sunPositions [] o.

(** [now1], [now2]: the two readings of [time.Now()]. *)
Definition SetNow (now1 now2 : time.Time) (o : opt) : opt :=
  SetDateRange now1 now2 o.

Definition SetDatePeriodical (dateStart' : time.Time) (p : Periodical)
    (o : opt) : opt :=
  let '(s, e) := GetDateRange p dateStart' in
  let o := set_dates s e p o in
  set_sunPositions [] o.

(** [now]: the reading of [time.Now()], taken only when the start date is
    the zero time. *)
Definition SetPeriodical (now : time.Time) (p : Periodical) (o : opt) : opt :=
  let o := if time.IsZero (dateStart o) then set_dateStart now o else o in
  SetDatePeriodical (dateStart o) p o.

End DateSetters.

Definition SetLatitudeLongitude (latitude' longitude' : Angle) (o : opt)
  : opt := set_coordinates latitude' longitude' o.

Definition SetMazhab (m : Mazhab) (o : opt) : opt := set_mazhab m o.

Definition SetTimezone (timezone : option time.Location) (o : opt) : opt :=
  set_timezoneLoc timezone o.

Definition SetFajrIshaZenith (fajrZenith' ishaZenith' : Angle) (o : opt)
  : opt := set_zeniths fajrZenith' ishaZenith' sunZenithEnum.Standard o.

(** [ValidateBySalat]: the options after the call and the error. *)
Definition ValidateBySalat (salat : salatEnum.Salat) (o : opt)
  : opt * option error :=
  if time.IsZero (dateStart o) then (o, Some ErrDateMissing)
  else if IsZero (latitude o) then (o, Some ErrLatitudeMissing)
  else if IsZero (longitude o) then (o, Some ErrLongitudeMissing)
  else
    let o :=
      if negb (angleType.eqb (AngleType (latitude o))
                             (AngleType (longitude o)))
      then set_longitude
             (ToSpecificType (longitude o) (AngleType (latitude o))) o
      else o in
    let o :=
      match timezoneLoc o with
      | None => set_timezoneLoc (Some time.UTC) o
      | Some _ => o
      end in
    if IsZero (fajrZenith o) && salatEnum.eqb salat salatEnum.Fajr
    then (o, Some ErrFajrZenithMissing)
    else if IsZero (ishaZenith o) && salatEnum.eqb salat salatEnum.Isha
    then (o, Some ErrIshaZenithMissing)
    else if (mazhab o =? 0) && salatEnum.eqb salat salatEnum.Asr
    then (o, Some ErrMazhabMissing)
    else (o, None).

(** The options as [ValidateBySalat] leaves them when date, latitude and
    longitude are present: the longitude in the representation of the
    latitude, and UTC in the place of a missing time zone. *)
Definition reconciled (o : opt) : opt :=
  let o :=
    if negb (angleType.eqb (AngleType (latitude o))
                           (AngleType (longitude o)))
    then set_longitude
           (ToSpecificType (longitude o) (AngleType (latitude o))) o
    else o in
  match timezoneLoc o with
  | None => set_timezoneLoc (Some time.UTC) o
  | Some _ => o
  end.

(* ------------------------------------------------------------------ *)
(** ** package schedule: the remaining setters and the sun positions *)

Definition SetElevation (elevation' : float64) (o : opt) : opt :=
  mkOpt (dateStart o) (dateEnd o) (periodical o) (latitude o) (longitude o)
        elevation' (timezoneLoc o) (fajrZenith o) (ishaZenith o)
        (ishaZenithType o) (mazhab o) (higherLatitudeMethod o)
        (roundingTimeOption o) (sunPositions o).

Definition SetHigherLatitudeMethod (higherLatMethod : HigherLat) (o : opt)
  : opt :=
  mkOpt (dateStart o) (dateEnd o) (periodical o) (latitude o) (longitude o)
        (elevation o) (timezoneLoc o) (fajrZenith o) (ishaZenith o)
        (ishaZenithType o) (mazhab o) higherLatMethod
        (roundingTimeOption o) (sunPositions o).

Definition SetRoundingTimeOption (roundingTimeOpt : RoundingTimeOption)
    (o : opt) : opt :=
  mkOpt (dateStart o) (dateEnd o) (periodical o) (latitude o) (longitude o)
        (elevation o) (timezoneLoc o) (fajrZenith o) (ishaZenith o)
        (ishaZenithType o) (mazhab o) (higherLatitudeMethod o)
        roundingTimeOpt (sunPositions o).

Section SunPositions.

(** The package utils/sunPositions is not among the sources; the function
    that computes the positions of a date range is a parameter. *)
Variable NewFromDateRange :
  time.Time -> time.Time -> option time.Location -> Angle -> SunPositions.

(** [CalculateSunPositions]: the options after the call and the error. *)
Definition CalculateSunPositions (o : opt) : opt * option error :=
  if negb (Nat.eqb (length (sunPositions o)) 0)
  then (o, None)
  else (set_sunPositions
          (NewFromDateRange (dateStart o) (dateEnd o) (timezoneLoc o)
                            (longitude o)) o,
        None).

End SunPositions.

Definition GetSunPositions (o : opt) : SunPositions := sunPositions o.

Definition GetDateRange (o : opt) : time.Time * time.Time :=
  (dateStart o, dateEnd o).

(** What the date setters do not touch. *)
Definition settings (o : opt) :=
  (latitude o, longitude o, elevation o, timezoneLoc o,
   (fajrZenith o, ishaZenith o, ishaZenithType o),
   (mazhab o, higherLatitudeMethod o, roundingTimeOption o)).

(** The three unit symbols of the textual form. *)
Definition isUnitSymbol (c : rune) : bool :=
  (c =? consts.DegreeSymbolRune) ||
  (c =? consts.MinuteSymbolRune) ||
  (c =? consts.SecondSymbolRune).

(** A text in which no unit symbol occurs. *)
Definition noUnitSymbol (l : list rune) : bool :=
  forallb (fun c => negb (isUnitSymbol c)) l.

(** The zero angle of a representation. *)
Definition zeroOf (t : angleType.AngleType) : Angle :=
  mkAngle (of_Z 0) (of_Z 0) (of_Z 0) false t.

(** All three fields are finite numbers. *)
Definition finiteFields (a : Angle) : bool :=
  is_finite (degree a) && is_finite (minute a) && is_finite (second a).

(* ------------------------------------------------------------------ *)
(** ** The subtraction of triples on binary64

    The same routine once more, with the fields of an angle as the
    primitive binary64 numbers of Rocq, whose operations round as Go's
    [float64] operations do.  It is used where a property of the routine
    turns on rounding. *)

Module B64.

Import PrimFloat.
Local Open Scope float_scope.

Record Angle : Type := mkAngle {
  degree : float;
  minute : float;
  second : float;
  neg : bool;
  angType : angleType.AngleType
}.

Definition DecimalZero : float := 0.
Definition DecimalOne : float := 1.
Definition TimeFormatConverter : float := 60.

(** [math.Floor]: below 2^52 in magnitude, adding and subtracting 2^52
    rounds to an integer, which is then corrected downwards; from 2^52 on
    every number is an integer. *)
Definition ffloor (x : float) : float :=
  if abs x <? 0x1p+52 then
    if x <? 0 then
      let y := - x in
      let r := (y + 0x1p+52) - 0x1p+52 in
      - (if r <? y then r + 1 else r)
    else
      let r := (x + 0x1p+52) - 0x1p+52 in
      if x <? r then r - 1 else r
  else x.

(** Modelled from the spec: [negate()], as [Neg] above. *)
Definition Neg (a : Angle) : Angle :=
  mkAngle (degree a) (minute a) (second a) (negb (neg a)) (angType a).

(** Modelled from the spec: [toDecimal()], as [ToDecimal] above. *)
Definition ToDecimal (a : Angle) : Angle :=
  match angType a with
  | angleType.Decimal => a
  | angleType.DegreeMinuteSecond =>
      mkAngle ((degree a + minute a / 60) + second a / 3600)
              0 0 (neg a) angleType.Decimal
  end.

(** Modelled from the spec: [toDegreeMinuteSecond()], as [ToMinuteSecond]
    above. *)
Definition ToMinuteSecond (a : Angle) : Angle :=
  match angType a with
  | angleType.DegreeMinuteSecond => a
  | angleType.Decimal =>
      let d := ffloor (degree a) in
      let rest := (degree a - d) * 60 in
      let m := ffloor rest in
      let s := (rest - m) * 60 in
      mkAngle d m s (neg a) angleType.DegreeMinuteSecond
  end.

(** Modelled from the spec: the normalisation, as
    [prepareConvertMinuteSecond] above. *)
Definition prepareConvertMinuteSecond (a : Angle) : Angle :=
  let cs := ffloor (second a / TimeFormatConverter) in
  let s := second a - cs * TimeFormatConverter in
  let m1 := minute a + cs in
  let cm := ffloor (m1 / TimeFormatConverter) in
  let m := m1 - cm * TimeFormatConverter in
  let d := degree a + cm in
  mkAngle d m s (neg a) (angType a).

Definition signedDecimal (a : Angle) : float :=
  let v := degree (ToDecimal a) in
  if neg a then - v else v.

(** Modelled from the spec: the comparison, as [GreatherThan] above. *)
Definition GreatherThan (a a1 : Angle) : bool :=
  signedDecimal a1 <? signedDecimal a.

Definition takeForSub (value upperValue : float) : float * float :=
  if upperValue =? DecimalZero
  then (value, upperValue)
  else (value + TimeFormatConverter, upperValue - DecimalOne).

Definition prepareMinuend (a a1 : Angle) : Angle :=
  let second0 := second a in
  let minute0 := minute a in
  let degree0 := degree a in
  let '(second1, minute1, degree1) :=
    if second0 <? second a1
    then
      let '(s, m) := takeForSub second0 minute0 in
      if s =? second a
      then let '(m', d') := takeForSub m degree0 in (s, m', d')
      else (s, m, degree0)
    else (second0, minute0, degree0) in
  let '(minute2, degree2) :=
    if minute1 <? minute a1
    then takeForSub minute1 degree1
    else (minute1, degree1) in
  mkAngle degree2 minute2 second1 false angleType.DegreeMinuteSecond.

Fixpoint subToMinuteSecondType (fuel : nat) (a a1 : Angle) : option Angle :=
  match fuel with
  | O => None
  | S fuel =>
      let a1 :=
        if negb (angleType.eqb (angType a1) angleType.DegreeMinuteSecond)
        then ToMinuteSecond a1 else a1 in
      let a := prepareMinuend a a1 in
      if GreatherThan a1 a
      then option_map Neg (subToMinuteSecondType fuel a1 a)
      else Some (prepareConvertMinuteSecond
                   (mkAngle (abs (degree a - degree a1))
                            (abs (minute a - minute a1))
                            (abs (second a - second a1))
                            false angleType.DegreeMinuteSecond))
  end.



End B64.

(* ------------------------------------------------------------------ *)
(** ** Values the properties are evaluated on *)

(** The text -10 followed by the degree sign, and the text 10 followed by
    the degree sign. *)
Definition text_minus_10_degree : list rune := [45; 49; 48; 176].
Definition text_10_degree : list rune := [49; 48; 176].

(** Options with a start date and coordinates and nothing else: Mecca on
    the instant one second after the zero time. *)
Definition optDateLatLong : opt :=
  SetLatitudeLongitude (dec (2142 # 100)) (dec (3983 # 100))
    (set_dateStart (time.mkTime 1 0) zeroOpt).

(** Options with coordinates and no date. *)
Definition optLatLong : opt :=
  SetLatitudeLongitude (dec (2142 # 100)) (dec (3983 # 100)) zeroOpt.

(** A date range that starts at the date it is given. *)
Definition rangeFrom (p : Periodical) (t : time.Time)
  : time.Time * time.Time :=
  (t, time.mkTime (time.sec t + 86400 * p) (time.nsec t)).

(** Options with a start date, a latitude given as a triple, a longitude
    given in decimal degrees, and neither time zone nor mazhab. *)
Definition optMixedCoordinates : opt :=
  SetLatitudeLongitude (dms 21 25 12) (dec (3983 # 100))
    (set_dateStart (time.mkTime 1 0) zeroOpt).

(** The text 1e400, a JSON number too large for a [float64]. *)
Definition text_1e400 : list rune := [49; 101; 52; 48; 48].

(** Options with one cached sun position. *)
Definition optCached : opt :=
  set_sunPositions [mkSunPosition (time.mkTime 1 0) (dec 23) (of_Z 0)]
                   optDateLatLong.

(* ================================================================== *)
(** * Properties *)

(** ** Division by a scalar *)

Lemma fdiv_zero_not_finite (x : float64) :
  is_finite (fdiv x (of_Z 0)) = false.
Proof.
  destruct x as [q | s | ]; cbn; try reflexivity.
  destruct (Qis_zero q); reflexivity.
Qed.

Lemma ffloor_not_finite (x : float64) :
  is_finite x = false -> ffloor x = x.
Proof. destruct x; cbn; [discriminate | reflexivity | reflexivity]. Qed.

(** C1, as the code has it.  For every angle, [divToDividendType] with the
    divisor 0 returns an angle and no error: the decimal degrees are
    divided by 0 as [float64] values, which gives an infinity or NaN, and
    the degree field of the angle returned is not a finite number. *)
Theorem divToDividendType_zero_returns (a : Angle) :
  exists v : Angle,
    call_divToDividendType a (of_Z 0) = Returned v /\
    angType v = angType a /\
    is_finite (degree v) = false.
Proof.
  eexists; split; [reflexivity | ].
  unfold divToDividendType.
  destruct a as [d m s n [ | ]]; cbn -[fdiv of_Z].
  - split; [reflexivity | apply fdiv_zero_not_finite].
  - split; [reflexivity | ].
    rewrite ffloor_not_finite; apply fdiv_zero_not_finite.
Qed.

(** C1, as the claim states it, fails: 10 degrees divided by 0 is returned
    as the angle of +Inf degrees, and the call does not fail with
    [ErrDivisionByZero]. *)
Lemma divToDividendType_zero_no_error :
  call_divToDividendType (dec 10) (of_Z 0)
    = Returned (mkAngle (Inf false) (of_Z 0) (of_Z 0) false angleType.Decimal)
  /\ ~ (forall a : Angle,
          call_divToDividendType a (of_Z 0) = Failed ErrDivisionByZero).
Proof.
  split; [reflexivity | ].
  intros H. specialize (H (dec 10)). discriminate H.
Qed.

(** ** Subtraction of two negative angles *)

(** C2, at the failing input.  (-10) - (-5) should be 5 - 10 = -5 degrees;
    [subToMinuendType] subtracts the absolute value of the subtrahend from
    itself and returns 0 degrees.  The same call on non-negative operands
    does flip the sign: 5 - 10 is -5 degrees. *)
Theorem subToMinuendType_negatives_zero :
  subToMinuendType callDepth (Neg (dec 10)) (Neg (dec 5)) = Some (dec 0)
  /\ subToMinuendType callDepth (dec 5) (dec 10) = Some (Neg (dec 5)).
Proof. split; reflexivity. Qed.

(** ** Subtraction with a double borrow *)

(** C6.  30d10'5'' - 0d20'10'' = 29d49'55'': [prepareMinuend] turns the
    minuend into 29d69'65'' (one minute borrowed into the seconds, one
    degree into the minutes), the fields are subtracted one by one, and
    minute and second of the result are in [0, 60). *)
Theorem sub_double_borrow :
  prepareMinuend (dms 30 10 5) (dms 0 20 10) = dms 29 69 65
  /\ subToMinuteSecondType 1 (dms 30 10 5) (dms 0 20 10)
       = Some (dms 29 49 55)
  /\ Sub (dms 30 10 5) (dms 0 20 10) = Some (dms 29 49 55)
  /\ (forall r, Sub (dms 30 10 5) (dms 0 20 10) = Some r ->
        fltb (minute r) (of_Z 0) = false /\
        fltb (minute r) (of_Z 60) = true /\
        fltb (second r) (of_Z 0) = false /\
        fltb (second r) (of_Z 60) = true).
Proof.
  repeat split; try reflexivity;
    match goal with H : Sub _ _ = Some _ |- _ =>
      vm_compute in H; injection H as <-; reflexivity end.
Qed.

(** ** Parsing *)

Lemma keeps_neg_ok : keeps_neg ok.
Proof. intros d. reflexivity. Qed.

Lemma keeps_neg_andThen (f g : action) :
  keeps_neg f -> keeps_neg g -> keeps_neg (f ;; g).
Proof.
  intros Hf Hg d. unfold andThen.
  specialize (Hf d). destruct (f d) as [d' [e | ]]; cbn in Hf |- *.
  - exact Hf.
  - rewrite Hg. exact Hf.
Qed.

Lemma keeps_neg_when (c : bool) (f : action) :
  keeps_neg f -> keeps_neg (when c f).
Proof. destruct c; cbn; [trivial | intros _; apply keeps_neg_ok]. Qed.

Lemma keeps_neg_unmarshalInto src get set :
  (forall v d, neg (set v d) = neg d) ->
  keeps_neg (unmarshalInto src get set).
Proof.
  intros Hset d. unfold unmarshalInto.
  destruct (json.Unmarshal src (get d)) as [v e]; cbn. apply Hset.
Qed.

Lemma keeps_neg_fillBySymbol src symbol : keeps_neg (fillBySymbol src symbol).
Proof.
  unfold fillBySymbol.
  repeat first [ apply keeps_neg_andThen | apply keeps_neg_when
               | apply keeps_neg_unmarshalInto; intros; reflexivity ].
Qed.

Lemma keeps_neg_decideFillBySymbol src symbol :
  keeps_neg (decideFillBySymbol src symbol).
Proof.
  intros d. unfold decideFillBySymbol.
  rewrite keeps_neg_fillBySymbol. destruct (_ || _); reflexivity.
Qed.

(** No rune is both the negative sign and one of the three unit symbols,
    so the branch of [scanByString] that sets the sign flag is never
    taken: parsing leaves the flag as it was. *)
Lemma scanLoop_keeps_neg (src buff : list rune) (s : rune) :
  keeps_neg (scanLoop src buff s).
Proof.
  revert buff s.
  induction src as [ | c rest IH]; intros buff s; cbn [scanLoop].
  - apply keeps_neg_decideFillBySymbol.
  - destruct (negb (c =? consts.DegreeSymbolRune) &&
              negb (c =? consts.MinuteSymbolRune) &&
              negb (c =? consts.SecondSymbolRune)) eqn:Hsym.
    + apply IH.
    + destruct (c =? consts.NegativeSymbolRune) eqn:Hneg.
      * apply Z.eqb_eq in Hneg. subst c. discriminate Hsym.
      * apply keeps_neg_andThen;
          [apply keeps_neg_decideFillBySymbol | apply IH].
Qed.

Lemma scanByString_keeps_neg (src : list rune) : keeps_neg (scanByString src).
Proof. apply scanLoop_keeps_neg. Qed.

(** C3, at the failing input.  Parsing -10 degrees succeeds, leaves the
    sign flag unset and stores -10 in the degree field (and in the second
    field): the minus sign is read as part of the number. *)
Theorem scanByString_negative_absorbed :
  scanByString text_minus_10_degree zeroAngle
    = (mkAngle (Fin (-10)) (of_Z 0) (Fin (-10)) false angleType.Decimal,
       None)
  /\ fltb (degree (fst (scanByString text_minus_10_degree zeroAngle)))
          (of_Z 0) = true.
Proof. split; reflexivity. Qed.

(** C9, at the failing input.  Parsing 10 degrees tags the angle decimal
    and stores 10 in the degree field and in the second field as well:
    [fillBySymbol] goes on to the second field after the degree field. *)
Theorem scanByString_degree_fills_second :
  scanByString text_10_degree zeroAngle
    = (mkAngle (Fin 10) (of_Z 0) (Fin 10) false angleType.Decimal, None)
  /\ feqb (second (fst (scanByString text_10_degree zeroAngle))) (of_Z 0)
       = false.
Proof. split; reflexivity. Qed.

(** ** Validation of the options *)

(** C4, as the code has it.  When the start date is the zero time,
    [ValidateBySalat] returns [ErrDateMissing] and changes nothing, for
    every prayer; [SetPeriodical], though, replaces a zero start date by the
    current time and goes on as [SetDatePeriodical] does from there. *)
Theorem zero_date_reported_or_defaulted
    (o : opt) (salat : salatEnum.Salat)
    (getDateRange : Periodical -> time.Time -> time.Time * time.Time)
    (now : time.Time) (p : Periodical) :
  time.IsZero (dateStart o) = true ->
  ValidateBySalat salat o = (o, Some ErrDateMissing)
  /\ SetPeriodical getDateRange now p o
       = SetDatePeriodical getDateRange now p (set_dateStart now o).
Proof.
  intros Hz. split.
  - unfold ValidateBySalat. rewrite Hz. reflexivity.
  - unfold SetPeriodical. rewrite Hz. reflexivity.
Qed.

Lemma zero_date_reported_or_defaulted_witness :
  time.IsZero (dateStart zeroOpt) = true
  /\ ValidateBySalat salatEnum.Dhuhr zeroOpt
       = (zeroOpt, Some ErrDateMissing)
  /\ SetPeriodical rangeFrom (time.mkTime 1 0) 1 zeroOpt
       = SetDatePeriodical rangeFrom (time.mkTime 1 0) 1
           (set_dateStart (time.mkTime 1 0) zeroOpt).
Proof.
  split; [reflexivity | ].
  apply (@zero_date_reported_or_defaulted zeroOpt salatEnum.Dhuhr
           rangeFrom (time.mkTime 1 0) 1).
  reflexivity.
Defined.

(** C4, as the claim states it, fails: on options whose start date is the
    zero time, [SetPeriodical] puts the current time in its place without
    reporting anything, and the validation that follows no longer returns
    [ErrDateMissing]. *)
Lemma SetPeriodical_defaults_zero_date :
  time.IsZero (dateStart optLatLong) = true
  /\ dateStart (SetPeriodical rangeFrom (time.mkTime 1 0) 1 optLatLong)
       = time.mkTime 1 0
  /\ snd (ValidateBySalat salatEnum.Dhuhr
            (SetPeriodical rangeFrom (time.mkTime 1 0) 1 optLatLong))
       = None
  /\ ~ (forall (now : time.Time) (p : Periodical) (o : opt),
          time.IsZero (dateStart o) = true ->
          time.IsZero (dateStart (SetPeriodical rangeFrom now p o)) = true).
Proof.
  repeat split.
  intros H. specialize (H (time.mkTime 1 0) 1 optLatLong eq_refl).
  discriminate H.
Qed.

(** What [ValidateBySalat] does once date, latitude and longitude have
    passed: the options are put in order first, the three requirements that
    depend on the prayer are checked on the result. *)
Lemma ValidateBySalat_passed (salat : salatEnum.Salat) (o : opt) :
  time.IsZero (dateStart o) = false ->
  IsZero (latitude o) = false ->
  IsZero (longitude o) = false ->
  ValidateBySalat salat o =
    (reconciled o,
     if IsZero (fajrZenith o) && salatEnum.eqb salat salatEnum.Fajr
     then Some ErrFajrZenithMissing
     else if IsZero (ishaZenith o) && salatEnum.eqb salat salatEnum.Isha
     then Some ErrIshaZenithMissing
     else if (mazhab o =? 0) && salatEnum.eqb salat salatEnum.Asr
     then Some ErrMazhabMissing
     else None).
Proof.
  intros Hd Hlat Hlong.
  unfold ValidateBySalat, reconciled. rewrite Hd, Hlat, Hlong.
  destruct (negb (angleType.eqb (AngleType (latitude o))
                                (AngleType (longitude o))));
    destruct (timezoneLoc o) eqn:Htz; cbn; rewrite ?Htz; cbn;
    repeat match goal with
           | |- context [if ?c then _ else _] => destruct c
           end; reflexivity.
Qed.

Lemma salatEnum_eqb_eq (s t : salatEnum.Salat) :
  salatEnum.eqb s t = true <-> s = t.
Proof. destruct s, t; cbn; split; congruence. Qed.

(** C7.  With date, latitude and longitude set: Asr without a mazhab is
    [ErrMazhabMissing]; Dhuhr is no error; the Fajr zenith is asked for
    exactly when Fajr is solved, the Isha zenith exactly when Isha is. *)
Theorem ValidateBySalat_requirements (o : opt) :
  time.IsZero (dateStart o) = false ->
  IsZero (latitude o) = false ->
  IsZero (longitude o) = false ->
  (mazhab o = 0 ->
     snd (ValidateBySalat salatEnum.Asr o) = Some ErrMazhabMissing)
  /\ snd (ValidateBySalat salatEnum.Dhuhr o) = None
  /\ (forall salat,
        snd (ValidateBySalat salat o) = Some ErrFajrZenithMissing <->
        IsZero (fajrZenith o) = true /\ salat = salatEnum.Fajr)
  /\ (forall salat,
        snd (ValidateBySalat salat o) = Some ErrIshaZenithMissing <->
        IsZero (ishaZenith o) = true /\ salat = salatEnum.Isha).
Proof.
  intros Hd Hlat Hlong.
  split; [ | split; [ | split]].
  - intros Hm. rewrite ValidateBySalat_passed by assumption.
    cbn. rewrite Hm, !andb_false_r. reflexivity.
  - rewrite ValidateBySalat_passed by assumption.
    cbn. rewrite !andb_false_r. reflexivity.
  - intros salat. rewrite ValidateBySalat_passed by assumption. cbn.
    rewrite <- salatEnum_eqb_eq.
    destruct (IsZero (fajrZenith o)), (IsZero (ishaZenith o)),
      (mazhab o =? 0), salat; cbn; intuition congruence.
  - intros salat. rewrite ValidateBySalat_passed by assumption. cbn.
    rewrite <- salatEnum_eqb_eq.
    destruct (IsZero (fajrZenith o)), (IsZero (ishaZenith o)),
      (mazhab o =? 0), salat; cbn; intuition congruence.
Qed.

Lemma ValidateBySalat_requirements_witness :
  snd (ValidateBySalat salatEnum.Asr optDateLatLong) = Some ErrMazhabMissing
  /\ snd (ValidateBySalat salatEnum.Dhuhr optDateLatLong) = None
  /\ snd (ValidateBySalat salatEnum.Fajr optDateLatLong)
       = Some ErrFajrZenithMissing
  /\ snd (ValidateBySalat salatEnum.Isha optDateLatLong)
       = Some ErrIshaZenithMissing.
Proof.
  destruct (@ValidateBySalat_requirements optDateLatLong
              eq_refl eq_refl eq_refl) as (Hasr & Hdhuhr & Hfajr & Hisha).
  split; [exact (Hasr eq_refl) | ].
  split; [exact Hdhuhr | ].
  split; [apply Hfajr | apply Hisha]; split; reflexivity.
Defined.

Lemma angType_ToSpecificType (a : Angle) (t : angleType.AngleType) :
  angType (ToSpecificType a t) = t.
Proof. destruct a as [d m s n [ | ]], t; reflexivity. Qed.

Lemma timezoneLoc_reconciled (o : opt) :
  timezoneLoc (reconciled o)
    = Some (match timezoneLoc o with None => time.UTC | Some l => l end).
Proof.
  unfold reconciled, set_longitude, set_coordinates.
  destruct (negb _); cbn; destruct (timezoneLoc o) eqn:Htz; cbn;
    rewrite ?Htz; reflexivity.
Qed.

Lemma longitude_reconciled (o : opt) :
  longitude (reconciled o)
    = ToSpecificType (longitude o) (AngleType (latitude o)).
Proof.
  unfold reconciled, set_longitude, set_coordinates.
  destruct (angleType.eqb (AngleType (latitude o))
                          (AngleType (longitude o))) eqn:Heq; cbn.
  - assert (Hl : ToSpecificType (longitude o) (AngleType (latitude o))
                 = longitude o).
    { unfold AngleType in *. destruct (latitude o) as [? ? ? ? [ | ]],
        (longitude o) as [? ? ? ? [ | ]]; cbn in *;
        reflexivity || discriminate. }
    rewrite Hl. destruct (timezoneLoc o); reflexivity.
  - destruct (timezoneLoc o); reflexivity.
Qed.

(** C10.  Once date, latitude and longitude are present, [ValidateBySalat]
    leaves the options reconciled whatever it returns: the longitude is in
    the representation of the latitude and a missing time zone is UTC.  A
    call that fails with [ErrMazhabMissing] on options without a time zone
    has changed them, and whether the time zone is set has no bearing on
    the error. *)
Theorem ValidateBySalat_changes_options
    (salat : salatEnum.Salat) (o : opt) :
  time.IsZero (dateStart o) = false ->
  IsZero (latitude o) = false ->
  IsZero (longitude o) = false ->
  fst (ValidateBySalat salat o) = reconciled o
  /\ longitude (reconciled o)
       = ToSpecificType (longitude o) (AngleType (latitude o))
  /\ AngleType (longitude (reconciled o)) = AngleType (latitude o)
  /\ timezoneLoc (reconciled o)
       = Some (match timezoneLoc o with None => time.UTC | Some l => l end)
  /\ (salat = salatEnum.Asr -> mazhab o = 0 -> timezoneLoc o = None ->
        snd (ValidateBySalat salat o) = Some ErrMazhabMissing /\
        fst (ValidateBySalat salat o) <> o)
  /\ (forall tz,
        snd (ValidateBySalat salat (set_timezoneLoc tz o))
          = snd (ValidateBySalat salat o)).
Proof.
  intros Hd Hlat Hlong.
  rewrite ValidateBySalat_passed by assumption. cbn [fst snd].
  split; [reflexivity | ].
  split; [apply longitude_reconciled | ].
  split; [rewrite longitude_reconciled; apply angType_ToSpecificType | ].
  split; [apply timezoneLoc_reconciled | ].
  split.
  - intros -> Hm Htz. cbn. rewrite Hm, !andb_false_r. split; [reflexivity | ].
    intros Heq. pose proof (timezoneLoc_reconciled o) as H.
    rewrite Heq, Htz in H. discriminate H.
  - intros tz. rewrite ValidateBySalat_passed by assumption. reflexivity.
Qed.

Lemma ValidateBySalat_changes_options_witness :
  ValidateBySalat salatEnum.Asr optMixedCoordinates
    = (reconciled optMixedCoordinates, Some ErrMazhabMissing)
  /\ longitude (reconciled optMixedCoordinates) = dms 39 49 48
  /\ fst (ValidateBySalat salatEnum.Asr optMixedCoordinates)
       <> optMixedCoordinates.
Proof.
  destruct (@ValidateBySalat_changes_options salatEnum.Asr
              optMixedCoordinates eq_refl eq_refl eq_refl)
    as (Hfst & Hlong & _ & _ & Hfail & _).
  destruct (Hfail eq_refl eq_refl eq_refl) as [Herr Hne].
  split; [ | split; [rewrite Hlong; reflexivity | exact Hne]].
  rewrite (surjective_pairing (ValidateBySalat _ _)), Hfst, Herr.
  reflexivity.
Defined.

(** ** The order of [float64] values *)

Lemma Qltb_asym (p q : Q) : Qltb p q = true -> Qltb q p = false.
Proof.
  unfold Qltb. rewrite <- (Qcompare_antisym p q).
  destruct (p ?= q)%Q; cbn; congruence.
Qed.

Lemma fltb_asym (x y : float64) : fltb x y = true -> fltb y x = false.
Proof.
  destruct x as [p | [ | ] | ], y as [q | [ | ] | ]; cbn;
    try congruence.
  apply Qltb_asym.
Qed.

Lemma fabs_fsub_sym (x y : float64) : fabs (fsub x y) = fabs (fsub y x).
Proof.
  destruct x as [p | [ | ] | ], y as [q | [ | ] | ]; cbn [fabs fsub];
    try reflexivity.
  f_equal. apply Qred_complete.
  rewrite (Qabs_wd _ _ (Qred_correct (p - q))).
  rewrite (Qabs_wd _ _ (Qred_correct (q - p))).
  rewrite Qabs_Qminus. reflexivity.
Qed.

(** ** The comparison of angles *)

Lemma GreatherThan_asym (a a1 : Angle) :
  GreatherThan a a1 = true -> GreatherThan a1 a = false.
Proof. unfold GreatherThan. apply fltb_asym. Qed.

Lemma signedDecimal_ToDecimal (a : Angle) :
  signedDecimal (ToDecimal a) = signedDecimal a.
Proof. destruct a as [d m s n [ | ]]; reflexivity. Qed.

(** ** One call of each routine *)

Lemma angType_Neg (a : Angle) : angType (Neg a) = angType a.
Proof. reflexivity. Qed.

Lemma subToMinuteSecondType_step (n : nat) (a a1 : Angle) :
  subToMinuteSecondType (S n) a a1 =
    let a1 :=
      if negb (angleType.eqb (angType a1) angleType.DegreeMinuteSecond)
      then ToMinuteSecond a1 else a1 in
    let a := prepareMinuend a a1 in
    if GreatherThan a1 a
    then option_map Neg (subToMinuteSecondType n a1 a)
    else Some (prepareConvertMinuteSecond
                 (mkAngle (fabs (fsub (degree a) (degree a1)))
                          (fabs (fsub (minute a) (minute a1)))
                          (fabs (fsub (second a) (second a1)))
                          false angleType.DegreeMinuteSecond)).
Proof. reflexivity. Qed.

Lemma subToDecimalType_step (n : nat) (a a1 : Angle) :
  subToDecimalType (S n) a a1 =
    let a1 :=
      if negb (angleType.eqb (angType a1) angleType.Decimal)
      then ToDecimal a1 else a1 in
    if GreatherThan a1 a
    then option_map Neg (subToDecimalType n a1 a)
    else Some (mkAngle (fabs (fsub (degree a) (degree a1)))
                       (of_Z 0) (of_Z 0) false angleType.Decimal).
Proof. reflexivity. Qed.

Lemma addToAugendType_step (n : nat) (a a1 : Angle) :
  addToAugendType (S n) a a1 =
    if neg a && neg a1
    then option_map Neg (addToAugendType n (Abs a) (Abs a1))
    else if neg a
    then subToMinuendType n (ToSpecificType a1 (angType a)) (Abs a)
    else if neg a1
    then subToMinuendType n a (Abs a1)
    else if angleType.eqb (angType a) angleType.Decimal
    then Some (addToDecimalType a a1)
    else Some (addToMinuteSecondType a a1).
Proof. reflexivity. Qed.

Lemma subToMinuendType_step (n : nat) (a a1 : Angle) :
  subToMinuendType (S n) a a1 =
    if neg a && neg a1
    then subToMinuendType n (ToSpecificType (Abs a1) (angType a)) (Abs a1)
    else if neg a
    then option_map Neg (addToAugendType n (Abs a) (Abs a1))
    else if neg a1
    then addToAugendType n (Abs a) (Abs a1)
    else if angleType.eqb (angType a1) angleType.Decimal
    then subToDecimalType n a a1
    else subToMinuteSecondType n a a1.
Proof. reflexivity. Qed.

Lemma neg_ToSpecificType (a : Angle) (t : angleType.AngleType) :
  neg (ToSpecificType a t) = neg a.
Proof. destruct a as [d m s n [ | ]], t; reflexivity. Qed.

Lemma angleType_eqb_eq (t u : angleType.AngleType) :
  angleType.eqb t u = true <-> t = u.
Proof. destruct t, u; cbn; split; congruence. Qed.

(** ** The decimal subtraction *)

(** [subToDecimalType] swaps its operands at most once. *)
Lemma subToDecimalType_returns (k : nat) (a a1 : Angle) :
  exists r, subToDecimalType (S (S k)) a a1 = Some r /\
            angType r = angleType.Decimal.
Proof.
  cbn [subToDecimalType].
  set (a1' := if negb (angleType.eqb (angType a1) angleType.Decimal)
              then ToDecimal a1 else a1).
  destruct (GreatherThan a1' a) eqn:G.
  - set (a' := if negb (angleType.eqb (angType a) angleType.Decimal)
               then ToDecimal a else a).
    assert (G' : GreatherThan a' a1' = false).
    { apply GreatherThan_asym in G. unfold GreatherThan in G |- *.
      replace (signedDecimal a') with (signedDecimal a); [exact G | ].
      unfold a'.
      destruct (negb (angleType.eqb (angType a) angleType.Decimal));
        [symmetry; apply signedDecimal_ToDecimal | reflexivity]. }
    rewrite G'. cbn [option_map]. eexists; split; reflexivity.
  - eexists; split; reflexivity.
Qed.

(** ** The representation of what is returned *)

Lemma subToDecimalType_tag (n : nat) :
  forall a a1 r,
    subToDecimalType n a a1 = Some r -> angType r = angleType.Decimal.
Proof.
  induction n as [ | n IH]; intros a a1 r H; [discriminate H | ].
  rewrite subToDecimalType_step in H. cbv zeta in H.
  destruct (GreatherThan _ a).
  - destruct (subToDecimalType n _ a) as [r0 | ] eqn:E;
      [ | discriminate H].
    injection H as <-. rewrite angType_Neg. exact (IH _ _ _ E).
  - injection H as <-. reflexivity.
Qed.

Lemma subToMinuteSecondType_tag (n : nat) :
  forall a a1 r,
    subToMinuteSecondType n a a1 = Some r ->
    angType r = angleType.DegreeMinuteSecond.
Proof.
  induction n as [ | n IH]; intros a a1 r H; [discriminate H | ].
  rewrite subToMinuteSecondType_step in H. cbv zeta in H.
  destruct (GreatherThan _ _).
  - destruct (subToMinuteSecondType n _ _) as [r0 | ] eqn:E;
      [ | discriminate H].
    injection H as <-. rewrite angType_Neg. exact (IH _ _ _ E).
  - injection H as <-. reflexivity.
Qed.

Lemma addToAugendType_nonneg_tag (n : nat) (a a1 r : Angle) :
  neg a = false -> neg a1 = false ->
  addToAugendType n a a1 = Some r -> angType r = angType a.
Proof.
  intros Hn Hn1 H. destruct n as [ | n]; [discriminate H | ].
  rewrite addToAugendType_step, Hn, Hn1 in H. cbn [andb] in H.
  destruct (angleType.eqb (angType a) angleType.Decimal) eqn:Ht;
    injection H as <-.
  - apply angleType_eqb_eq in Ht. rewrite Ht. reflexivity.
  - destruct (angType a); [discriminate Ht | reflexivity].
Qed.

Lemma subToMinuendType_nonneg_tag (n : nat) (a a1 r : Angle) :
  neg a = false -> neg a1 = false ->
  subToMinuendType n a a1 = Some r -> angType r = angType a1.
Proof.
  intros Hn Hn1 H. destruct n as [ | n]; [discriminate H | ].
  rewrite subToMinuendType_step, Hn, Hn1 in H. cbn [andb] in H.
  destruct (angleType.eqb (angType a1) angleType.Decimal) eqn:Ht.
  - apply angleType_eqb_eq in Ht. rewrite Ht.
    exact (subToDecimalType_tag _ _ _ H).
  - rewrite (subToMinuteSecondType_tag _ _ _ H).
    destruct (angType a1); [discriminate Ht | reflexivity].
Qed.

(** ** The swap recursion on binary64 *)


(** ** Subtraction of decimal angles *)

(** The subtraction of two non-negative decimal angles. *)
Lemma subToDecimalType_decimals (k : nat) (x y : float64)
    (mx sx my sy : float64) :
  subToDecimalType (S (S k))
      (mkAngle x mx sx false angleType.Decimal)
      (mkAngle y my sy false angleType.Decimal)
    = Some (mkAngle (fabs (fsub x y)) (of_Z 0) (of_Z 0) (fltb x y)
                    angleType.Decimal).
Proof.
  cbn -[fltb fabs fsub of_Z GreatherThan].
  change (GreatherThan (mkAngle y my sy false angleType.Decimal)
                       (mkAngle x mx sx false angleType.Decimal))
    with (fltb x y).
  change (GreatherThan (mkAngle x mx sx false angleType.Decimal)
                       (mkAngle y my sy false angleType.Decimal))
    with (fltb y x).
  destruct (fltb x y) eqn:G.
  - rewrite (fltb_asym _ _ G). cbn -[fabs fsub of_Z].
    rewrite (fabs_fsub_sym y x). reflexivity.
  - reflexivity.
Qed.

Lemma fltb_irrefl (x : float64) : fltb x x = false.
Proof.
  destruct (fltb x x) eqn:H; [ | reflexivity].
  rewrite (fltb_asym _ _ H) in H. discriminate H.
Qed.

(** The difference of two negative decimal angles does not depend on the
    minuend: it is the subtrahend's magnitude minus itself. *)
Lemma subToMinuendType_negatives_ignore_minuend (a a1 : Angle) :
  neg a = true -> neg a1 = true ->
  angType a = angleType.Decimal -> angType a1 = angleType.Decimal ->
  Sub a a1 =
    Some (mkAngle (fabs (fsub (degree a1) (degree a1)))
                  (of_Z 0) (of_Z 0) false angleType.Decimal).
Proof.
  destruct a as [d m s n t], a1 as [d1 m1 s1 n1 t1].
  cbn [angType neg degree]. intros -> -> -> ->.
  unfold Sub, callDepth.
  rewrite subToMinuendType_step; cbn [neg andb angType].
  unfold Abs, set_neg;
    cbn [neg angType degree minute second ToSpecificType ToDecimal].
  rewrite subToMinuendType_step; cbn [neg andb angType angleType.eqb].
  rewrite (subToDecimalType_decimals 1), fltb_irrefl. reflexivity.
Qed.

(** ** Addition with one negative operand *)

(** C5, as the code has it.  When exactly one operand is negative the sum
    is computed as a subtraction of absolute values, both of them
    non-negative: with a negative augend, the addend converted to the
    representation of the augend, minus the magnitude of the augend; with
    a negative addend, the augend minus the magnitude of the addend,
    nothing converted.  When the augend is the negative operand, or the
    operands have one representation, a result that is returned is in the
    representation of the augend.  For decimal operands the result is the
    signed difference: its magnitude is the absolute difference of the two
    degree fields, and it is negative exactly when the negative operand is
    the greater in magnitude.  -10 + 15 is 5 degrees, and -10 + (-5) is
    -15 degrees. *)
Theorem addToAugendType_one_negative (a a1 : Angle) (n : nat) :
  xorb (neg a) (neg a1) = true ->
  addToAugendType (S n) a a1
    = (if neg a
       then subToMinuendType n (ToSpecificType a1 (angType a)) (Abs a)
       else subToMinuendType n a (Abs a1))
  /\ (neg a = true ->
      neg (ToSpecificType a1 (angType a)) = false /\
      neg (Abs a) = false /\
      angType (ToSpecificType a1 (angType a)) = angType a /\
      angType (Abs a) = angType a)
  /\ (neg a1 = true ->
      neg a = false /\ neg (Abs a1) = false /\
      angType (Abs a1) = angType a1)
  /\ (neg a = true \/ angType a = angType a1 ->
      forall r, addToAugendType (S n) a a1 = Some r ->
                angType r = angType a)
  /\ (angType a = angleType.Decimal -> angType a1 = angleType.Decimal ->
      Add a a1 =
        Some (mkAngle (fabs (fsub (degree a) (degree a1)))
                      (of_Z 0) (of_Z 0)
                      (if neg a then fltb (degree a1) (degree a)
                       else fltb (degree a) (degree a1))
                      angleType.Decimal))
  /\ Add (Neg (dec 10)) (dec 15) = Some (dec 5)
  /\ Add (Neg (dec 10)) (Neg (dec 5)) = Some (Neg (dec 15)).
Proof.
  intros Hx.
  assert (Hstep : addToAugendType (S n) a a1
            = (if neg a
               then subToMinuendType n (ToSpecificType a1 (angType a))
                                     (Abs a)
               else subToMinuendType n a (Abs a1))).
  { rewrite addToAugendType_step.
    destruct (neg a), (neg a1); try discriminate Hx; reflexivity. }
  split; [exact Hstep | ].
  split.
  { intros Hn. rewrite Hn in Hx. cbn in Hx. apply negb_true_iff in Hx.
    rewrite neg_ToSpecificType, angType_ToSpecificType.
    repeat split. exact Hx. }
  split.
  { intros Hn1. rewrite Hn1 in Hx.
    destruct (neg a); [discriminate Hx | ]. repeat split. }
  split.
  { intros Hrep r Hr. rewrite Hstep in Hr.
    destruct (neg a) eqn:Hn, (neg a1) eqn:Hn1; try discriminate Hx.
    - apply subToMinuendType_nonneg_tag in Hr;
        [exact Hr | rewrite neg_ToSpecificType; exact Hn1 | reflexivity].
    - destruct Hrep as [Hrep | Hrep]; [discriminate Hrep | ].
      apply subToMinuendType_nonneg_tag in Hr;
        [ | exact Hn | reflexivity].
      rewrite Hr, Hrep. reflexivity. }
  split; [ | split; reflexivity].
  destruct a as [d m s na t], a1 as [d1 m1 s1 n1 t1].
  cbn [angType neg degree] in *. intros -> ->.
  unfold Add, callDepth.
  destruct na, n1; try discriminate Hx;
    rewrite addToAugendType_step; cbn [neg andb];
    rewrite subToMinuendType_step;
    cbn [neg andb angType Abs set_neg ToSpecificType ToDecimal
         degree minute second angleType.eqb];
    unfold Abs, set_neg; cbn [neg angType degree minute second];
    rewrite (subToDecimalType_decimals 1).
  - rewrite (fabs_fsub_sym d1 d). reflexivity.
  - reflexivity.
Qed.

Lemma addToAugendType_one_negative_witness :
  Add (Neg (dec 10)) (dec 15) = Some (dec 5)
  /\ Add (dec 10) (Neg (dec 15)) = Some (Neg (dec 5))
  /\ Add (Neg (dms 10 30 0)) (dec 15)
       = Sub (ToSpecificType (dec 15) angleType.DegreeMinuteSecond)
             (dms 10 30 0)
  /\ angType (dms 4 30 0) = angleType.DegreeMinuteSecond.
Proof.
  destruct (@addToAugendType_one_negative (Neg (dec 10)) (dec 15) 4
              eq_refl) as (_ & _ & _ & _ & _ & H & _).
  destruct (@addToAugendType_one_negative (dec 10) (Neg (dec 15)) 4
              eq_refl) as (_ & _ & _ & _ & Hdec & _).
  destruct (@addToAugendType_one_negative (Neg (dms 10 30 0)) (dec 15) 5
              eq_refl) as (Hsub & _ & _ & Hrep & _).
  split; [exact H | ].
  split; [exact (Hdec eq_refl eq_refl) | ].
  split; [exact Hsub | ].
  exact (Hrep (or_introl eq_refl) (dms 4 30 0) eq_refl).
Defined.

(** C5, as the claim states it, fails: -10d30'0'' + 15 degrees is carried
    out on triples, the representation of the negative operand, and gives
    4d30'0''; the positive operand is decimal. *)
Lemma addToAugendType_negative_representation :
  neg (Neg (dms 10 30 0)) = true
  /\ neg (dec 15) = false
  /\ Add (Neg (dms 10 30 0)) (dec 15) = Some (dms 4 30 0)
  /\ angType (dms 4 30 0) <> angType (dec 15).
Proof. repeat split; discriminate. Qed.

(* ================================================================== *)
(** * Further properties of the arithmetic *)

(** X2.  When the seconds of the minuend are fewer than those of the
    subtrahend and its minute field is zero, [prepareMinuend] borrows for
    the minutes only: the seconds are returned as they came and are still
    the fewer, so the subtraction that follows takes them the wrong way
    round. *)
Theorem prepareMinuend_zero_minute_gap (a a1 : Angle) :
  feqb (minute a) consts.DecimalZero = true ->
  fltb (second a) (second a1) = true ->
  second (prepareMinuend a a1) = second a
  /\ fltb (second (prepareMinuend a a1)) (second a1) = true.
Proof.
  intros Hm Hs.
  assert (H : second (prepareMinuend a a1) = second a).
  { unfold prepareMinuend. rewrite Hs.
    unfold takeForSub at 1. rewrite Hm.
    destruct (feqb (second a) (second a)).
    - destruct (takeForSub (minute a) (degree a)) as [m' d'].
      destruct (fltb m' (minute a1));
        [destruct (takeForSub m' d') | ]; reflexivity.
    - destruct (fltb (minute a) (minute a1));
        [destruct (takeForSub (minute a) (degree a)) | ]; reflexivity. }
  split; [exact H | rewrite H; exact Hs].
Qed.

Lemma prepareMinuend_zero_minute_gap_witness :
  second (prepareMinuend (dms 30 0 5) (dms 0 0 10)) = Fin 5
  /\ fltb (second (prepareMinuend (dms 30 0 5) (dms 0 0 10))) (Fin 10)
       = true
  /\ Sub (dms 30 0 5) (dms 0 0 10) = Some (dms 30 0 5).
Proof.
  destruct (@prepareMinuend_zero_minute_gap (dms 30 0 5) (dms 0 0 10)
              eq_refl eq_refl) as [H1 H2].
  split; [exact H1 | split; [exact H2 | reflexivity]].
Defined.

Lemma addToAugendType_nonneg_type (k : nat) (a a1 : Angle) :
  neg a = false -> neg a1 = false ->
  exists r, addToAugendType (S k) a a1 = Some r /\ angType r = angType a.
Proof.
  intros Hn Hn1. rewrite addToAugendType_step, Hn, Hn1. cbn [andb].
  destruct (angleType.eqb (angType a) angleType.Decimal) eqn:Ht.
  - apply angleType_eqb_eq in Ht. eexists; split; [reflexivity | ].
    rewrite Ht. reflexivity.
  - eexists; split; [reflexivity | ].
    destruct (angType a); [discriminate Ht | reflexivity].
Qed.

(** X3.  The representation of a result.  A sum that is returned is in
    the representation of the augend, except when only the addend is
    negative: then it is in the representation of the addend.  A
    difference that is returned is in the representation of the
    subtrahend when the operands have one sign, and in that of the minuend
    when they have opposite signs. *)
Theorem result_representation (a a1 : Angle) (n : nat) (r : Angle) :
  (addToAugendType n a a1 = Some r ->
   angType r = if negb (neg a) && neg a1 then angType a1 else angType a)
  /\ (subToMinuendType n a a1 = Some r ->
      angType r = if Bool.eqb (neg a) (neg a1)
                  then angType a1 else angType a).
Proof.
  destruct n as [ | n]; [split; intros H; discriminate H | ].
  rewrite addToAugendType_step, subToMinuendType_step.
  destruct (neg a) eqn:Hn, (neg a1) eqn:Hn1; cbn [andb negb Bool.eqb];
    split; intros H.
  - destruct (addToAugendType n (Abs a) (Abs a1)) as [r0 | ] eqn:E;
      [ | discriminate H].
    injection H as <-. rewrite angType_Neg.
    exact (@addToAugendType_nonneg_tag n (Abs a) (Abs a1) r0
             eq_refl eq_refl E).
  - apply subToMinuendType_nonneg_tag in H;
      [exact H | rewrite neg_ToSpecificType; reflexivity | reflexivity].
  - apply subToMinuendType_nonneg_tag in H;
      [exact H | rewrite neg_ToSpecificType; exact Hn1 | reflexivity].
  - destruct (addToAugendType n (Abs a) (Abs a1)) as [r0 | ] eqn:E;
      [ | discriminate H].
    injection H as <-. rewrite angType_Neg.
    exact (@addToAugendType_nonneg_tag n (Abs a) (Abs a1) r0
             eq_refl eq_refl E).
  - apply subToMinuendType_nonneg_tag in H;
      [exact H | exact Hn | reflexivity].
  - exact (@addToAugendType_nonneg_tag n (Abs a) (Abs a1) r
             eq_refl eq_refl H).
  - apply (@addToAugendType_nonneg_tag (S n) a a1 r Hn Hn1).
    rewrite addToAugendType_step, Hn, Hn1. exact H.
  - apply (@subToMinuendType_nonneg_tag (S n) a a1 r Hn Hn1).
    rewrite subToMinuendType_step, Hn, Hn1. exact H.
Qed.

Lemma result_representation_witness :
  Add (dms 10 30 0) (Neg (dec 5)) = Some (dec 5)
  /\ angType (dec 5) = angType (Neg (dec 5))
  /\ Sub (dec 10) (dms 1 30 0) = Some (dms 8 30 0)
  /\ angType (dms 8 30 0) = angType (dms 1 30 0).
Proof.
  split; [reflexivity | split; [ | split; [reflexivity | ]]].
  - exact (proj1 (@result_representation (dms 10 30 0) (Neg (dec 5))
                    callDepth (dec 5)) eq_refl).
  - exact (proj2 (@result_representation (dec 10) (dms 1 30 0)
                    callDepth (dms 8 30 0)) eq_refl).
Defined.

(** X19.  The dispatch returns whenever it ends in an addition of
    magnitudes or in the decimal subtraction: a sum of operands of one
    sign, a difference of operands of opposite signs, every difference
    with a decimal subtrahend, and every sum of operands of opposite signs
    whose negative operand is decimal.  The decimal subtraction swaps its
    operands at most once. *)
Theorem dispatch_returns_off_triples (a a1 : Angle) :
  (Bool.eqb (neg a) (neg a1) = true -> exists r, Add a a1 = Some r)
  /\ (Bool.eqb (neg a) (neg a1) = false -> exists r, Sub a a1 = Some r)
  /\ (angType a1 = angleType.Decimal -> exists r, Sub a a1 = Some r)
  /\ (xorb (neg a) (neg a1) = true ->
      angType (if neg a then a else a1) = angleType.Decimal ->
      exists r, Add a a1 = Some r)
  /\ (forall k, exists r, subToDecimalType (2 + k) a a1 = Some r).
Proof.
  assert (Hadd : forall k x y, neg x = false -> neg y = false ->
            exists r, addToAugendType (S k) x y = Some r).
  { intros k x y Hx Hy.
    destruct (addToAugendType_nonneg_type k x y Hx Hy) as (r & Hr & _).
    exists r. exact Hr. }
  assert (Hsubdec : forall k x y, neg x = false -> neg y = false ->
            angType y = angleType.Decimal ->
            exists r, subToMinuendType (S (S (S k))) x y = Some r).
  { intros k x y Hx Hy Ht.
    rewrite subToMinuendType_step, Hx, Hy, Ht. cbn [andb angleType.eqb].
    destruct (subToDecimalType_returns k x y) as (r & Hr & _).
    exists r. exact Hr. }
  assert (Hmap : forall o : option Angle,
            (exists r, o = Some r) -> exists r, option_map Neg o = Some r).
  { intros o [r ->]. eexists; reflexivity. }
  unfold Add, Sub, callDepth.
  rewrite (addToAugendType_step 4 a a1), (subToMinuendType_step 4 a a1).
  destruct (neg a) eqn:Hn, (neg a1) eqn:Hn1;
    cbn [andb negb Bool.eqb xorb].
  - split; [intros _; apply Hmap, Hadd; reflexivity | ].
    split; [intros H; discriminate H | ].
    split; [ | split; [intros H; discriminate H | ]].
    + intros Ht. apply Hsubdec;
        [rewrite neg_ToSpecificType; reflexivity | reflexivity | exact Ht].
    + intros k. destruct (subToDecimalType_returns k a a1) as (r & Hr & _).
      exists r. exact Hr.
  - split; [intros H; discriminate H | ].
    split; [intros _; apply Hmap, Hadd; reflexivity | ].
    split; [intros _; apply Hmap, Hadd; reflexivity | ].
    split.
    + intros _ Ht. apply Hsubdec;
        [rewrite neg_ToSpecificType; exact Hn1 | reflexivity | exact Ht].
    + intros k. destruct (subToDecimalType_returns k a a1) as (r & Hr & _).
      exists r. exact Hr.
  - split; [intros H; discriminate H | ].
    split; [intros _; apply Hadd; reflexivity | ].
    split; [intros _; apply Hadd; reflexivity | ].
    split.
    + intros _ Ht. apply Hsubdec; [exact Hn | reflexivity | exact Ht].
    + intros k. destruct (subToDecimalType_returns k a a1) as (r & Hr & _).
      exists r. exact Hr.
  - split.
    { intros _. destruct (angleType.eqb _ _); eexists; reflexivity. }
    split; [intros H; discriminate H | ].
    split; [ | split; [intros H; discriminate H | ]].
    + intros Ht. rewrite Ht. cbn [angleType.eqb].
      destruct (subToDecimalType_returns 2 a a1) as (r & Hr & _).
      exists r. exact Hr.
    + intros k. destruct (subToDecimalType_returns k a a1) as (r & Hr & _).
      exists r. exact Hr.
Qed.

Lemma dispatch_returns_off_triples_witness :
  (exists r, Add (Neg (dms 1 2 3)) (Neg (dec 4)) = Some r)
  /\ (exists r, Sub (dms 1 2 3) (Neg (dms 4 5 6)) = Some r)
  /\ (exists r, Sub (dms 1 2 3) (dec 4) = Some r)
  /\ (exists r, Add (dms 1 2 3) (Neg (dec 4)) = Some r).
Proof.
  destruct (@dispatch_returns_off_triples (Neg (dms 1 2 3)) (Neg (dec 4)))
    as (H1 & _).
  destruct (@dispatch_returns_off_triples (dms 1 2 3) (Neg (dms 4 5 6)))
    as (_ & H2 & _).
  destruct (@dispatch_returns_off_triples (dms 1 2 3) (dec 4))
    as (_ & _ & H3 & _).
  destruct (@dispatch_returns_off_triples (dms 1 2 3) (Neg (dec 4)))
    as (_ & _ & _ & H4 & _).
  split; [exact (H1 eq_refl) | ].
  split; [exact (H2 eq_refl) | ].
  split; [exact (H3 eq_refl) | exact (H4 eq_refl eq_refl)].
Defined.

(** X4.  A non-negative decimal subtrahend that is not the greater is
    subtracted from the degree field alone: the minutes and seconds of a
    minuend given as a triple are dropped, and the result is decimal. *)
Theorem sub_decimal_drops_minute_second (a a1 : Angle) :
  neg a = false -> neg a1 = false ->
  angType a1 = angleType.Decimal ->
  GreatherThan a1 a = false ->
  Sub a a1 =
    Some (mkAngle (fabs (fsub (degree a) (degree a1)))
                  (of_Z 0) (of_Z 0) false angleType.Decimal).
Proof.
  intros Hn Hn1 Ht G. unfold Sub, callDepth.
  rewrite subToMinuendType_step, Hn, Hn1, Ht. cbn [andb angleType.eqb].
  rewrite subToDecimalType_step. cbv zeta.
  rewrite Ht. cbn [angleType.eqb negb]. rewrite G. reflexivity.
Qed.

Lemma sub_decimal_drops_minute_second_witness :
  Sub (dms 10 30 0) (dec 5) = Some (dec 5).
Proof.
  exact (@sub_decimal_drops_minute_second (dms 10 30 0) (dec 5)
           eq_refl eq_refl eq_refl eq_refl).
Defined.

(** ** Division *)

Lemma quotient_negative (p q : Q) :
  (0 < p)%Q -> (q < 0)%Q -> (p / q < 0)%Q.
Proof.
  intros Hp Hq.
  assert (Hq0 : ~ (q == 0)%Q).
  { intros E. rewrite E in Hq. exact (Qlt_irrefl 0 Hq). }
  assert (Hnq : (0 < - q)%Q) by (apply (Qopp_lt_compat q 0); exact Hq).
  assert (Hpos : (0 < p * / (- q))%Q).
  { apply Qmult_lt_0_compat; [exact Hp | ].
    apply Qinv_lt_0_compat. exact Hnq. }
  setoid_replace (p / q)%Q with (- (p * / (- q)))%Q by (field; exact Hq0).
  apply (Qopp_lt_compat 0 (p * / (- q))). exact Hpos.
Qed.

Lemma Qis_zero_negative (q : Q) : (q < 0)%Q -> Qis_zero q = false.
Proof.
  unfold Qis_zero, Qlt. cbn. intros H.
  apply Z.eqb_neq. intros E. rewrite E in H. cbn in H.
  exact (Z.lt_irrefl 0 H).
Qed.

(** X5.  [divToDividendType] never touches the sign flag and returns the
    representation it was given, for every divisor, zero included. *)
Theorem divToDividendType_keeps_flags (a : Angle) (d : float64) :
  neg (divToDividendType a d) = neg a
  /\ angType (divToDividendType a d) = angType a.
Proof.
  unfold divToDividendType.
  destruct a as [dg m s n [ | ]]; cbn -[fdiv fadd]; split; reflexivity.
Qed.

(** X6.  The sign of the divisor is not carried over to the sign flag: a
    decimal angle of positive degrees divided by a negative scalar keeps
    its flag and its minute and second fields; its degree field becomes
    the quotient, which is not a positive number. *)
Theorem divToDividendType_negative_divisor (a : Angle) (p q : Q) :
  angType a = angleType.Decimal ->
  degree a = Fin p ->
  (0 < p)%Q -> (q < 0)%Q ->
  divToDividendType a (Fin q) = set_degree (fdiv (degree a) (Fin q)) a
  /\ neg (divToDividendType a (Fin q)) = neg a
  /\ fltb (of_Z 0) (degree (divToDividendType a (Fin q))) = false.
Proof.
  intros Ht Hd Hp Hq.
  assert (E : divToDividendType a (Fin q)
              = set_degree (fdiv (degree a) (Fin q)) a).
  { unfold divToDividendType. destruct a as [dg m s n t].
    cbn [angType degree] in Ht, Hd. subst t dg. reflexivity. }
  rewrite E. split; [reflexivity | split; [reflexivity | ]].
  rewrite Hd. cbn [set_degree degree fdiv].
  rewrite (Qis_zero_negative Hq). cbn [fltb of_Z].
  apply Qltb_asym. unfold Qltb.
  assert (H : (Qred (p / q) < inject_Z 0)%Q).
  { rewrite Qred_correct. apply quotient_negative; assumption. }
  rewrite (proj1 (Qlt_alt (Qred (p / q)) (inject_Z 0)) H). reflexivity.
Qed.

Lemma divToDividendType_negative_divisor_witness :
  divToDividendType (dec 10) (Fin (-2)) = set_degree (Fin (-5)) (dec 10)
  /\ neg (divToDividendType (dec 10) (Fin (-2))) = false
  /\ fltb (of_Z 0) (degree (divToDividendType (dec 10) (Fin (-2)))) = false.
Proof.
  exact (@divToDividendType_negative_divisor (dec 10) 10 (-2)
           eq_refl eq_refl eq_refl eq_refl).
Defined.

(** ** Laws of signs and of the inverse *)

Lemma Abs_Neg_nonneg (a : Angle) : neg a = false -> Abs (Neg a) = a.
Proof. destruct a as [d m s n t]; cbn. intros ->. reflexivity. Qed.

Lemma addToAugendType_nonneg_fuel (k : nat) (a a1 : Angle) :
  neg a = false -> neg a1 = false ->
  addToAugendType (S k) a a1 = Add a a1.
Proof.
  intros Hn Hn1. unfold Add, callDepth.
  rewrite !addToAugendType_step, Hn, Hn1. reflexivity.
Qed.

(** X7.  On non-negative operands the dispatch obeys the laws of signs:
    (-a) + (-b) = -(a + b), a - (-b) = a + b and (-a) - b = -(a + b),
    each computed by the addition of the two magnitudes. *)
Theorem sign_laws (a a1 : Angle) :
  neg a = false -> neg a1 = false ->
  Add (Neg a) (Neg a1) = option_map Neg (Add a a1)
  /\ Sub a (Neg a1) = Add a a1
  /\ Sub (Neg a) a1 = option_map Neg (Add a a1).
Proof.
  intros Hn Hn1.
  assert (Ha : Abs a = a) by (destruct a; cbn in *; subst; reflexivity).
  assert (Ha1 : Abs a1 = a1) by (destruct a1; cbn in *; subst; reflexivity).
  assert (Hneg : neg (Neg a) = true) by (cbn; rewrite Hn; reflexivity).
  assert (Hneg1 : neg (Neg a1) = true) by (cbn; rewrite Hn1; reflexivity).
  split; [ | split].
  - unfold Add at 1. unfold callDepth.
    rewrite addToAugendType_step, Hneg, Hneg1. cbn [andb].
    rewrite !Abs_Neg_nonneg by assumption.
    rewrite addToAugendType_nonneg_fuel by assumption. reflexivity.
  - unfold Sub, callDepth.
    rewrite subToMinuendType_step, Hn, Hneg1. cbn [andb].
    rewrite Ha, Abs_Neg_nonneg by assumption.
    apply addToAugendType_nonneg_fuel; assumption.
  - unfold Sub, callDepth.
    rewrite subToMinuendType_step, Hneg, Hn1. cbn [andb].
    rewrite Ha1, Abs_Neg_nonneg by assumption.
    rewrite addToAugendType_nonneg_fuel by assumption. reflexivity.
Qed.

Lemma sign_laws_witness :
  Add (Neg (dec 10)) (Neg (dms 1 30 0)) = Some (Neg (dec (23 # 2)))
  /\ Sub (dec 10) (Neg (dms 1 30 0)) = Some (dec (23 # 2))
  /\ Sub (Neg (dec 10)) (dms 1 30 0) = Some (Neg (dec (23 # 2))).
Proof.
  exact (@sign_laws (dec 10) (dms 1 30 0) eq_refl eq_refl).
Defined.

Lemma fabs_fsub_self (x : float64) :
  is_finite x = true -> fabs (fsub x x) = of_Z 0.
Proof.
  destruct x as [q | s | ]; cbn [is_finite]; try discriminate. intros _.
  cbn [fsub fabs].
  rewrite (Qred_complete (q - q) 0 (Qplus_opp_r q)). reflexivity.
Qed.

Lemma ToSpecificType_same (a : Angle) : ToSpecificType a (angType a) = a.
Proof. destruct a as [d m s n [ | ]]; reflexivity. Qed.

Lemma GreatherThan_irrefl (a : Angle) : GreatherThan a a = false.
Proof. unfold GreatherThan. apply fltb_irrefl. Qed.

(** A non-negative angle of finite fields minus itself. *)
Lemma subToMinuendType_self (k : nat) (a : Angle) :
  neg a = false -> finiteFields a = true ->
  subToMinuendType (S (S k)) a a = Some (zeroOf (angType a)).
Proof.
  intros Hn Hf. rewrite subToMinuendType_step, Hn. cbn [andb].
  destruct a as [d m s n [ | ]]; cbn [neg angType angleType.eqb] in *;
    subst n; unfold finiteFields in Hf; cbn [degree minute second] in Hf;
    apply andb_prop in Hf; destruct Hf as [Hf Hs];
    apply andb_prop in Hf; destruct Hf as [Hd Hm].
  - rewrite subToDecimalType_step. cbv zeta. cbn [angType angleType.eqb negb].
    rewrite GreatherThan_irrefl. cbn [degree].
    rewrite (fabs_fsub_self _ Hd). reflexivity.
  - rewrite subToMinuteSecondType_step. cbv zeta.
    cbn [angType angleType.eqb negb].
    assert (Hpm : prepareMinuend
                    (mkAngle d m s false angleType.DegreeMinuteSecond)
                    (mkAngle d m s false angleType.DegreeMinuteSecond)
                  = mkAngle d m s false angleType.DegreeMinuteSecond).
    { unfold prepareMinuend. cbn [degree minute second].
      rewrite !fltb_irrefl. reflexivity. }
    rewrite Hpm, GreatherThan_irrefl. cbn [degree minute second].
    rewrite (fabs_fsub_self _ Hd), (fabs_fsub_self _ Hm),
      (fabs_fsub_self _ Hs).
    reflexivity.
Qed.

(** X8.  A non-negative angle of finite fields is its own inverse: a - a,
    a + (-a) and (-a) + a are the zero angle of the representation of a,
    with the sign flag unset. *)
Theorem additive_inverse (a : Angle) :
  neg a = false -> finiteFields a = true ->
  Sub a a = Some (zeroOf (angType a))
  /\ Add a (Neg a) = Some (zeroOf (angType a))
  /\ Add (Neg a) a = Some (zeroOf (angType a)).
Proof.
  intros Hn Hf.
  assert (Hneg : neg (Neg a) = true) by (cbn; rewrite Hn; reflexivity).
  split; [ | split].
  - apply subToMinuendType_self; assumption.
  - unfold Add, callDepth.
    rewrite addToAugendType_step, Hn, Hneg. cbn [andb].
    rewrite Abs_Neg_nonneg by assumption.
    apply subToMinuendType_self; assumption.
  - unfold Add, callDepth.
    rewrite addToAugendType_step, Hn, Hneg. cbn [andb].
    rewrite Abs_Neg_nonneg by assumption.
    change (angType (Neg a)) with (angType a).
    rewrite ToSpecificType_same.
    apply subToMinuendType_self; assumption.
Qed.

Lemma additive_inverse_witness :
  Sub (dms 21 25 12) (dms 21 25 12) = Some (dms 0 0 0)
  /\ Add (dms 21 25 12) (Neg (dms 21 25 12)) = Some (dms 0 0 0)
  /\ Add (Neg (dms 21 25 12)) (dms 21 25 12) = Some (dms 0 0 0).
Proof.
  exact (@additive_inverse (dms 21 25 12) eq_refl eq_refl).
Defined.

(** X9.  The difference of two non-negative decimal angles is the decimal
    angle whose magnitude is the absolute value of the difference of the
    two degree fields, with the sign flag set exactly when the degrees of
    the minuend are the fewer; minute and second fields of the operands
    play no part. *)
Theorem sub_decimal_value (a a1 : Angle) :
  neg a = false -> neg a1 = false ->
  angType a = angleType.Decimal -> angType a1 = angleType.Decimal ->
  Sub a a1 =
    Some (mkAngle (fabs (fsub (degree a) (degree a1)))
                  (of_Z 0) (of_Z 0)
                  (fltb (degree a) (degree a1))
                  angleType.Decimal).
Proof.
  destruct a as [d m s n t], a1 as [d1 m1 s1 n1 t1].
  cbn [neg angType degree]. intros -> -> -> ->.
  unfold Sub, callDepth.
  rewrite subToMinuendType_step. cbn [neg andb angType angleType.eqb].
  apply (subToDecimalType_decimals 2).
Qed.

Lemma sub_decimal_value_witness :
  Sub (dec 5) (dec 10) = Some (Neg (dec 5))
  /\ Sub (dec 10) (dec 5) = Some (dec 5).
Proof.
  split.
  - exact (@sub_decimal_value (dec 5) (dec 10)
             eq_refl eq_refl eq_refl eq_refl).
  - exact (@sub_decimal_value (dec 10) (dec 5)
             eq_refl eq_refl eq_refl eq_refl).
Defined.

(* ================================================================== *)
(** * Further properties of the parser *)

(** X10.  No parse sets the sign flag: after [scanByString],
    [UnmarshalParam] or [Scan], on any text and with or without an error,
    the flag of the receiver is what it was before. *)
Theorem parsing_keeps_sign_flag (d : Angle) :
  (forall src, neg (fst (scanByString src d)) = neg d)
  /\ (forall src, neg (fst (UnmarshalParam src d)) = neg d)
  /\ (forall val, neg (fst (Scan val d)) = neg d).
Proof.
  split; [ | split].
  - intros src. apply scanByString_keeps_neg.
  - intros src. apply scanByString_keeps_neg.
  - intros [rawVal | ]; [apply scanByString_keeps_neg | reflexivity].
Qed.

Lemma symbol_test (c : rune) :
  negb (c =? consts.DegreeSymbolRune) &&
  negb (c =? consts.MinuteSymbolRune) &&
  negb (c =? consts.SecondSymbolRune) = negb (isUnitSymbol c).
Proof.
  unfold isUnitSymbol.
  destruct (c =? consts.DegreeSymbolRune), (c =? consts.MinuteSymbolRune),
    (c =? consts.SecondSymbolRune); reflexivity.
Qed.

Lemma unit_symbol_not_negative (c : rune) :
  isUnitSymbol c = true -> (c =? consts.NegativeSymbolRune) = false.
Proof.
  unfold isUnitSymbol. intros H.
  apply orb_prop in H. destruct H as [H | H];
    [apply orb_prop in H; destruct H as [H | H] | ];
    apply Z.eqb_eq in H; subst c; reflexivity.
Qed.

(** The runes before the first unit symbol go to the buffer. *)
Lemma scanLoop_buffers (pre rest buff : list rune) (s : rune) :
  noUnitSymbol pre = true ->
  scanLoop (pre ++ rest) buff s
    = scanLoop rest (buff ++ pre) (fold_left (fun _ c => c) pre s).
Proof.
  revert buff s. induction pre as [ | c pre IH]; intros buff s Hpre.
  - rewrite app_nil_r. reflexivity.
  - cbn [noUnitSymbol forallb] in Hpre.
    apply andb_prop in Hpre. destruct Hpre as [Hc Hpre].
    cbn [app scanLoop fold_left]. rewrite symbol_test, Hc.
    rewrite (IH (buff ++ [c]) c Hpre), <- app_assoc. reflexivity.
Qed.

Lemma scanLoop_symbol (c : rune) (rest buff : list rune) (s : rune) :
  isUnitSymbol c = true ->
  scanLoop (c :: rest) buff s
    = (decideFillBySymbol buff c ;; scanLoop rest buff c).
Proof.
  intros Hc. cbn [scanLoop].
  rewrite symbol_test, Hc, (unit_symbol_not_negative c Hc). reflexivity.
Qed.

Lemma last_rune_no_symbol (pre : list rune) (s : rune) :
  noUnitSymbol pre = true -> isUnitSymbol s = false ->
  isUnitSymbol (fold_left (fun _ c => c) pre s) = false.
Proof.
  revert s. induction pre as [ | c pre IH]; intros s Hpre Hs.
  - exact Hs.
  - cbn [noUnitSymbol forallb] in Hpre.
    apply andb_prop in Hpre. destruct Hpre as [Hc Hpre].
    cbn [fold_left]. apply IH; [exact Hpre | ].
    apply negb_true_iff. exact Hc.
Qed.

Lemma decideFillBySymbol_no_symbol (buff : list rune) (s : rune) (d : Angle) :
  isUnitSymbol s = false ->
  decideFillBySymbol buff s d
    = unmarshalInto buff second set_second
        (set_angType angleType.Decimal d).
Proof.
  unfold isUnitSymbol. intros H.
  apply orb_false_elim in H. destruct H as [H Hs].
  apply orb_false_elim in H. destruct H as [Hd Hm].
  unfold decideFillBySymbol, fillBySymbol. rewrite Hd, Hm, Hs.
  reflexivity.
Qed.

(** X11.  A text without a unit symbol is not rejected for that: when
    [json.Unmarshal] accepts it as a number, what it decodes is stored in
    the second field, the degree and minute fields are left as they were
    and the angle is tagged decimal.  When it is not a number (the empty
    text, for one) or a number out of the range of [float64], the parse
    fails, and has still changed the tag of the receiver to decimal. *)
Theorem scanByString_without_symbol (src : list rune) (d : Angle) :
  noUnitSymbol src = true ->
  scanByString src d =
    match json.decode src with
    | json.Number v =>
        (mkAngle (degree d) (minute d) v (neg d) angleType.Decimal, None)
    | json.Null => (set_angType angleType.Decimal d, None)
    | json.OutOfRange =>
        (set_angType angleType.Decimal d, Some ErrUnmarshal)
    | json.Invalid => (set_angType angleType.Decimal d, Some ErrUnmarshal)
    end.
Proof.
  intros Hsrc. unfold scanByString.
  rewrite <- (app_nil_r src) at 1.
  rewrite (scanLoop_buffers src [] [] 0 Hsrc). cbn [app scanLoop].
  rewrite decideFillBySymbol_no_symbol
    by (apply last_rune_no_symbol; [exact Hsrc | reflexivity]).
  unfold unmarshalInto, json.Unmarshal.
  destruct d as [dg m s n t].
  destruct (json.decode src); reflexivity.
Qed.

Lemma scanByString_without_symbol_witness :
  scanByString [49; 48] (dms 1 2 3)
    = (mkAngle (Fin 1) (Fin 2) (Fin 10) false angleType.Decimal, None)
  /\ scanByString [] (dms 1 2 3)
       = (set_angType angleType.Decimal (dms 1 2 3), Some ErrUnmarshal)
  /\ scanByString text_1e400 (dms 1 2 3)
       = (set_angType angleType.Decimal (dms 1 2 3), Some ErrUnmarshal).
Proof.
  split; [ | split].
  - exact (@scanByString_without_symbol [49; 48] (dms 1 2 3) eq_refl).
  - exact (@scanByString_without_symbol [] (dms 1 2 3) eq_refl).
  - exact (@scanByString_without_symbol text_1e400 (dms 1 2 3) eq_refl).
Defined.

Lemma decideFillBySymbol_degree (buff : list rune) (q : float64) (d : Angle) :
  json.decode buff = json.Number q ->
  decideFillBySymbol buff consts.DegreeSymbolRune d
    = (mkAngle q (minute d) q (neg d) angleType.Decimal, None).
Proof.
  intros H. unfold decideFillBySymbol, fillBySymbol.
  cbn [Z.eqb consts.DegreeSymbolRune consts.MinuteSymbolRune
       consts.SecondSymbolRune Pos.eqb orb when].
  unfold andThen, ok, unmarshalInto, json.Unmarshal. rewrite H.
  destruct d; reflexivity.
Qed.

Lemma decideFillBySymbol_minute (buff : list rune) (q : float64) (d : Angle) :
  json.decode buff = json.Number q ->
  decideFillBySymbol buff consts.MinuteSymbolRune d
    = (mkAngle (degree d) q q (neg d)
               angleType.DegreeMinuteSecond, None).
Proof.
  intros H. unfold decideFillBySymbol, fillBySymbol.
  cbn [Z.eqb consts.DegreeSymbolRune consts.MinuteSymbolRune
       consts.SecondSymbolRune Pos.eqb orb when].
  unfold andThen, ok, unmarshalInto, json.Unmarshal. rewrite H.
  destruct d; reflexivity.
Qed.

Lemma decideFillBySymbol_second (buff : list rune) (q : float64) (d : Angle) :
  json.decode buff = json.Number q ->
  decideFillBySymbol buff consts.SecondSymbolRune d
    = (mkAngle (degree d) (minute d) q (neg d)
               angleType.DegreeMinuteSecond, None).
Proof.
  intros H. unfold decideFillBySymbol, fillBySymbol.
  cbn [Z.eqb consts.DegreeSymbolRune consts.MinuteSymbolRune
       consts.SecondSymbolRune Pos.eqb orb when].
  unfold andThen, ok, unmarshalInto, json.Unmarshal. rewrite H.
  destruct d; reflexivity.
Qed.

(** X12.  The buffer is never emptied.  In a text of the full form
    (degrees, degree sign, minutes, minute sign, seconds, second sign),
    when [json.Unmarshal] accepts the three texts it is given, the minute
    field receives what the degree digits followed by the minute digits
    decode to, and the second field what all three groups together decode
    to; the angle is tagged as a triple. *)
Theorem scanByString_buffer_accumulates
    (ds ms ss : list rune) (q1 q2 q3 : float64) (d : Angle) :
  noUnitSymbol ds = true ->
  noUnitSymbol ms = true ->
  noUnitSymbol ss = true ->
  json.decode ds = json.Number q1 ->
  json.decode (ds ++ ms) = json.Number q2 ->
  json.decode ((ds ++ ms) ++ ss) = json.Number q3 ->
  scanByString (ds ++ consts.DegreeSymbolRune ::
                ms ++ consts.MinuteSymbolRune ::
                ss ++ [consts.SecondSymbolRune]) d
    = (mkAngle q1 q2 q3 (neg d) angleType.DegreeMinuteSecond, None).
Proof.
  intros Hds Hms Hss H1 H2 H3. unfold scanByString.
  rewrite (scanLoop_buffers ds _ [] 0 Hds). cbn [app].
  rewrite scanLoop_symbol by reflexivity. unfold andThen at 1.
  rewrite (decideFillBySymbol_degree ds d H1).
  rewrite (scanLoop_buffers ms _ ds _ Hms).
  rewrite scanLoop_symbol by reflexivity. unfold andThen at 1.
  rewrite (decideFillBySymbol_minute (ds ++ ms) _ H2).
  rewrite (scanLoop_buffers ss _ (ds ++ ms) _ Hss).
  rewrite scanLoop_symbol by reflexivity. unfold andThen at 1.
  rewrite (decideFillBySymbol_second ((ds ++ ms) ++ ss) _ H3).
  cbn [scanLoop].
  rewrite (decideFillBySymbol_second ((ds ++ ms) ++ ss) _ H3).
  reflexivity.
Qed.

Lemma scanByString_buffer_accumulates_witness :
  scanByString [49; 48; 176; 50; 48; 39; 51; 48; 34] zeroAngle
    = (mkAngle (Fin 10) (Fin 1020) (Fin 102030) false
               angleType.DegreeMinuteSecond, None).
Proof.
  exact (@scanByString_buffer_accumulates [49; 48] [50; 48] [51; 48]
           (Fin 10) (Fin 1020) (Fin 102030) zeroAngle
           eq_refl eq_refl eq_refl eq_refl eq_refl eq_refl).
Defined.

(** X13.  When the text before the first unit symbol is not a JSON number
    (or is empty), the parse stops at that symbol with the error of
    [json.Unmarshal]; the rest of the text is not looked at, the fields
    and the sign flag are untouched, and the tag has been set by the kind
    of the symbol. *)
Theorem scanByString_fails_at_first_symbol
    (pre rest : list rune) (c : rune) (d : Angle) :
  noUnitSymbol pre = true ->
  isUnitSymbol c = true ->
  json.decode pre = json.Invalid ->
  scanByString (pre ++ c :: rest) d
    = (set_angType
         (if (c =? consts.MinuteSymbolRune) ||
             (c =? consts.SecondSymbolRune)
          then angleType.DegreeMinuteSecond else angleType.Decimal) d,
       Some ErrUnmarshal).
Proof.
  intros Hpre Hc Hdec. unfold scanByString.
  rewrite (scanLoop_buffers pre _ [] 0 Hpre). cbn [app].
  rewrite (scanLoop_symbol c rest pre _ Hc). unfold andThen at 1.
  assert (E : decideFillBySymbol pre c d
              = (set_angType
                   (if (c =? consts.MinuteSymbolRune) ||
                       (c =? consts.SecondSymbolRune)
                    then angleType.DegreeMinuteSecond
                    else angleType.Decimal) d,
                 Some ErrUnmarshal)).
  { unfold decideFillBySymbol, fillBySymbol, andThen, when, ok,
      unmarshalInto, json.Unmarshal.
    rewrite Hdec. destruct d as [dg m s n t].
    unfold isUnitSymbol in Hc.
    destruct (c =? consts.DegreeSymbolRune) eqn:E1;
      destruct (c =? consts.MinuteSymbolRune) eqn:E2;
      destruct (c =? consts.SecondSymbolRune) eqn:E3;
      try discriminate Hc; try reflexivity;
      apply Z.eqb_eq in E1; apply Z.eqb_eq in E2; subst c;
      discriminate E2. }
  rewrite E. reflexivity.
Qed.

Lemma scanByString_fails_at_first_symbol_witness :
  scanByString [176; 49; 48; 39] (dms 1 2 3)
    = (set_angType angleType.Decimal (dms 1 2 3), Some ErrUnmarshal)
  /\ scanByString [97; 39; 53; 34] (dec 7)
       = (set_angType angleType.DegreeMinuteSecond (dec 7),
          Some ErrUnmarshal).
Proof.
  split.
  - exact (@scanByString_fails_at_first_symbol [] [49; 48; 39] 176
             (dms 1 2 3) eq_refl eq_refl eq_refl).
  - exact (@scanByString_fails_at_first_symbol [97] [53; 34] 39
             (dec 7) eq_refl eq_refl eq_refl).
Defined.

(* ================================================================== *)
(** * Further properties of the options *)

Ltac passed_cases o salat :=
  destruct (IsZero (fajrZenith o)) eqn:?Hf,
    (IsZero (ishaZenith o)) eqn:?Hi,
    (Z.eqb_spec (mazhab o) 0) as [?Hm | ?Hm], salat;
  cbn [andb salatEnum.eqb].

Ltac use_reflexive_premises :=
  repeat match goal with
         | K : ?s = ?s -> _ |- _ => specialize (K eq_refl)
         end.

Ltac settle_iff :=
  split; intros ?H;
  [ try discriminate; repeat (split; try (intros; congruence))
  | decompose [and] H; use_reflexive_premises; congruence ].

(** X14.  The three checks that do not depend on the prayer come first, in
    the order date, latitude, longitude: each error is returned exactly
    when what it names is missing and what precedes it is present.  When
    one of the three is missing, the options are returned as they were. *)
Theorem ValidateBySalat_first_checks (salat : salatEnum.Salat) (o : opt) :
  (snd (ValidateBySalat salat o) = Some ErrDateMissing <->
     time.IsZero (dateStart o) = true)
  /\ (snd (ValidateBySalat salat o) = Some ErrLatitudeMissing <->
        time.IsZero (dateStart o) = false /\ IsZero (latitude o) = true)
  /\ (snd (ValidateBySalat salat o) = Some ErrLongitudeMissing <->
        time.IsZero (dateStart o) = false /\ IsZero (latitude o) = false /\
        IsZero (longitude o) = true)
  /\ (negb (time.IsZero (dateStart o)) && negb (IsZero (latitude o))
        && negb (IsZero (longitude o)) = false ->
      fst (ValidateBySalat salat o) = o).
Proof.
  destruct (time.IsZero (dateStart o)) eqn:Hd;
    [ | destruct (IsZero (latitude o)) eqn:Hlat;
        [ | destruct (IsZero (longitude o)) eqn:Hlong ] ].
  4: { rewrite (ValidateBySalat_passed salat o Hd Hlat Hlong).
       cbn [fst snd andb negb].
       split; [ | split; [ | split]];
         [ passed_cases o salat; settle_iff
         | passed_cases o salat; settle_iff
         | passed_cases o salat; settle_iff
         | intros H; discriminate H ]. }
  all: unfold ValidateBySalat; rewrite Hd; try rewrite Hlat;
    try rewrite Hlong; cbn [fst snd andb negb];
    (split; [ | split; [ | split]]);
    [ settle_iff | settle_iff | settle_iff | reflexivity ].
Qed.

(** X15.  Validation succeeds exactly when date, latitude and longitude are
    present and the one input the prayer needs is: the Fajr zenith for
    Fajr, the Isha zenith for Isha, the mazhab for Asr, nothing more for
    the other prayers.  It fails with [ErrMazhabMissing] exactly for Asr
    on otherwise complete options without a mazhab. *)
Theorem ValidateBySalat_success (salat : salatEnum.Salat) (o : opt) :
  (snd (ValidateBySalat salat o) = None <->
     time.IsZero (dateStart o) = false /\
     IsZero (latitude o) = false /\
     IsZero (longitude o) = false /\
     (salat = salatEnum.Fajr -> IsZero (fajrZenith o) = false) /\
     (salat = salatEnum.Isha -> IsZero (ishaZenith o) = false) /\
     (salat = salatEnum.Asr -> mazhab o <> 0))
  /\ (snd (ValidateBySalat salat o) = Some ErrMazhabMissing <->
        time.IsZero (dateStart o) = false /\
        IsZero (latitude o) = false /\
        IsZero (longitude o) = false /\
        salat = salatEnum.Asr /\ mazhab o = 0).
Proof.
  destruct (time.IsZero (dateStart o)) eqn:Hd;
    [ | destruct (IsZero (latitude o)) eqn:Hlat;
        [ | destruct (IsZero (longitude o)) eqn:Hlong ] ].
  4: { rewrite (ValidateBySalat_passed salat o Hd Hlat Hlong).
       cbn [snd].
       split; passed_cases o salat; settle_iff. }
  all: unfold ValidateBySalat; rewrite Hd; try rewrite Hlat;
    try rewrite Hlong; cbn [snd]; split; settle_iff.
Qed.

(** X16.  Each of the four date setters empties the cached sun positions
    and changes nothing but the dates and the periodical.  [SetDateRange]
    stores the two dates it is given, [SetDatePeriodical] the range the
    periodical gives for the date; [SetPeriodical] is
    [SetDatePeriodical] on the start date in place, or on the current
    time when that date is the zero time. *)
Theorem date_setters_reset_cache
    (getByDateRange : time.Time -> time.Time -> Periodical)
    (getDateRange : Periodical -> time.Time -> time.Time * time.Time)
    (s e now : time.Time) (p : Periodical) (o : opt) :
  (settings (SetDateRange getByDateRange s e o) = settings o /\
   sunPositions (SetDateRange getByDateRange s e o) = [] /\
   GetDateRange (SetDateRange getByDateRange s e o) = (s, e))
  /\ (settings (SetNow getByDateRange s e o) = settings o /\
      sunPositions (SetNow getByDateRange s e o) = [])
  /\ (settings (SetDatePeriodical getDateRange s p o) = settings o /\
      sunPositions (SetDatePeriodical getDateRange s p o) = [] /\
      periodical (SetDatePeriodical getDateRange s p o) = p /\
      GetDateRange (SetDatePeriodical getDateRange s p o)
        = getDateRange p s)
  /\ (settings (SetPeriodical getDateRange now p o) = settings o /\
      sunPositions (SetPeriodical getDateRange now p o) = [] /\
      SetPeriodical getDateRange now p o
        = SetDatePeriodical getDateRange
            (if time.IsZero (dateStart o) then now else dateStart o) p o).
Proof.
  split; [ | split; [ | split]].
  - repeat split.
  - repeat split.
  - unfold SetDatePeriodical, GetDateRange.
    destruct (getDateRange p s) as [s' e']. repeat split.
  - unfold SetPeriodical, SetDatePeriodical.
    destruct (time.IsZero (dateStart o)); cbn [dateStart set_dateStart
      set_dates].
    + destruct (getDateRange p now) as [s' e']. repeat split.
    + destruct (getDateRange p (dateStart o)) as [s' e']. repeat split.
Qed.

(** X17.  [CalculateSunPositions] never returns an error and computes at
    most once: a second call returns what the first returned.  After a
    date setter it computes anew, from the new dates and the time zone and
    longitude in place. *)
Theorem CalculateSunPositions_once
    (newFromDateRange :
       time.Time -> time.Time -> option time.Location -> Angle
       -> SunPositions)
    (getByDateRange : time.Time -> time.Time -> Periodical)
    (s e : time.Time) (o : opt) :
  snd (CalculateSunPositions newFromDateRange o) = None
  /\ CalculateSunPositions newFromDateRange
       (fst (CalculateSunPositions newFromDateRange o))
     = CalculateSunPositions newFromDateRange o
  /\ GetSunPositions
       (fst (CalculateSunPositions newFromDateRange
               (SetDateRange getByDateRange s e o)))
     = newFromDateRange s e (timezoneLoc o) (longitude o).
Proof.
  split; [ | split].
  - unfold CalculateSunPositions. destruct (negb _); reflexivity.
  - unfold CalculateSunPositions.
    destruct (negb (Nat.eqb (length (sunPositions o)) 0)) eqn:Hc;
      cbn [fst].
    + rewrite Hc. reflexivity.
    + cbn [sunPositions set_sunPositions dateStart dateEnd timezoneLoc
           longitude].
      destruct (negb (Nat.eqb (length (newFromDateRange _ _ _ _)) 0));
        reflexivity.
  - reflexivity.
Qed.

(** X18.  Sun positions that have been computed are kept when the
    coordinates or the time zone are changed afterwards, although both the
    longitude and the time zone went into them: [CalculateSunPositions]
    returns the options with the cached positions unchanged. *)
Theorem CalculateSunPositions_keeps_cache
    (newFromDateRange :
       time.Time -> time.Time -> option time.Location -> Angle
       -> SunPositions)
    (lat long : Angle) (tz : option time.Location) (o : opt) :
  sunPositions o <> [] ->
  CalculateSunPositions newFromDateRange o = (o, None)
  /\ CalculateSunPositions newFromDateRange
       (SetLatitudeLongitude lat long o)
     = (SetLatitudeLongitude lat long o, None)
  /\ CalculateSunPositions newFromDateRange (SetTimezone tz o)
     = (SetTimezone tz o, None)
  /\ GetSunPositions
       (fst (CalculateSunPositions newFromDateRange
               (SetTimezone tz (SetLatitudeLongitude lat long o))))
     = sunPositions o.
Proof.
  intros Hne.
  assert (Hc : negb (Nat.eqb (length (sunPositions o)) 0) = true).
  { destruct (sunPositions o); [contradiction Hne; reflexivity | ].
    reflexivity. }
  unfold CalculateSunPositions, SetLatitudeLongitude, SetTimezone,
    GetSunPositions.
  cbn [sunPositions set_coordinates set_timezoneLoc].
  rewrite Hc. repeat split.
Qed.

Lemma CalculateSunPositions_keeps_cache_witness :
  CalculateSunPositions (fun _ _ _ _ => [])
      (SetLatitudeLongitude (dec 1) (dec 2) optCached)
    = (SetLatitudeLongitude (dec 1) (dec 2) optCached, None)
  /\ GetSunPositions
       (fst (CalculateSunPositions (fun _ _ _ _ => [])
               (SetTimezone None
                  (SetLatitudeLongitude (dec 1) (dec 2) optCached))))
     = sunPositions optCached.
Proof.
  destruct (@CalculateSunPositions_keeps_cache (fun _ _ _ _ => [])
              (dec 1) (dec 2) None optCached
              ltac:(discriminate)) as (_ & H1 & _ & H2).
  split; [exact H1 | exact H2].
Defined.
